(** * The autonomous task-scheduling and lead-qualification loop

    A shallow embedding of the decision logic of
    [core/ultra_automated_orchestrator.py] (lead scoring, lead
    qualification, bounded error recovery, the revenue cycle and the
    top-level gather) and of the agents' [execute_task] of
    [core/complete_agent_implementations.py].

    Python floats are IEEE binary64 numbers and are modelled by Rocq's
    primitive floats, so that sums such as [0.35 + 0.25 + 0.20 + 0.20] are
    computed with the interpreter's own rounding.  Python strings are
    modelled by [string] read as a sequence of code points below 256; dicts
    by finite maps with string keys. *)

From Stdlib Require Import Floats ZArith NArith Ascii String List Bool Lia.
From stdpp Require Import base option gmap strings list pretty.

Set Warnings "-inexact-float,-register-all".
Local Open Scope Z_scope.
Local Open Scope string_scope.

(** ** Python strings *)

Module PyStr.

Definition code (c : ascii) : N := N_of_ascii c.

Definition between (lo hi n : N) : bool := ((lo <=? n) && (n <=? hi))%N.

(** [str.lower()] on code points below 256: the ASCII capitals and the
    Latin-1 capitals (U+00C0 to U+00DE, the multiplication sign U+00D7
    apart) move up by 32, everything else stays. *)
Definition lower_char (c : ascii) : ascii :=
  let n := code c in
  if between 65 90 n || (between 192 222 n && negb (n =? 215)%N)
  then ascii_of_N (n + 32) else c.

Fixpoint lower (s : string) : string :=
  match s with
  | EmptyString => EmptyString
  | String c s' => String (lower_char c) (lower s')
  end.

Fixpoint startswith (p s : string) : bool :=
  match p, s with
  | EmptyString, _ => true
  | String a p', String b s' => Ascii.eqb a b && startswith p' s'
  | String _ _, EmptyString => false
  end.

(** [p in s] for two strings: [p] occurs in [s] as a substring. *)
Fixpoint contains (p s : string) : bool :=
  startswith p s ||
  match s with
  | EmptyString => false
  | String _ s' => contains p s'
  end.

(** [s.split(sep)] for a one-character separator. *)
Fixpoint split (sep : ascii) (s : string) : list string :=
  match s with
  | EmptyString => [EmptyString]
  | String c s' =>
      if Ascii.eqb c sep then EmptyString :: split sep s'
      else match split sep s' with
           | h :: t => String c h :: t
           | [] => [String c EmptyString]
           end
  end.

(** [s[:n]] *)
Fixpoint take (n : nat) (s : string) : string :=
  match n, s with
  | O, _ => EmptyString
  | S _, EmptyString => EmptyString
  | S n', String c s' => String c (take n' s')
  end.

Fixpoint strlen (s : string) : nat :=
  match s with
  | EmptyString => O
  | String _ s' => S (strlen s')
  end.

Definition dquote : ascii := ascii_of_nat 34.
Definition squote : ascii := ascii_of_nat 39.
Definition backslash : ascii := ascii_of_nat 92.

Definition hex_digit (n : N) : ascii :=
  if (n <? 10)%N then ascii_of_N (48 + n) else ascii_of_N (87 + n).

(** One character of [repr(s)] inside the quote [q]. *)
Definition repr_char (q c : ascii) : string :=
  let n := code c in
  if Ascii.eqb c q || Ascii.eqb c backslash then String backslash (String c "")
  else if (n =? 9)%N then String backslash "t"
  else if (n =? 10)%N then String backslash "n"
  else if (n =? 13)%N then String backslash "r"
  else if (n <? 32)%N || between 127 160 n || (n =? 173)%N
  then String backslash
         (String "x" (String (hex_digit (n / 16)) (String (hex_digit (n mod 16)) "")))
  else String c "".

Fixpoint repr_body (q : ascii) (s : string) : string :=
  match s with
  | EmptyString => EmptyString
  | String c s' => repr_char q c ++ repr_body q s'
  end.

(** [repr(s)]: single quotes, unless the string holds a single quote and
    no double quote. *)
Definition repr (s : string) : string :=
  let q := if contains (String squote "") s && negb (contains (String dquote "") s)
           then dquote else squote in
  String q (repr_body q s ++ String q "").

(** *** [int(s)] *)

(** White space skipped by [int]: the ASCII white space and the Unicode
    spaces U+0085 and U+00A0. *)
Definition is_space (c : ascii) : bool :=
  let n := code c in between 9 13 n || (n =? 32)%N || (n =? 133)%N || (n =? 160)%N.

Definition is_digit (c : ascii) : bool := between 48 57 (code c).

Definition digit_val (c : ascii) : Z := Z.of_N (code c) - 48.

Fixpoint skip_space (s : string) : string :=
  match s with
  | String c s' => if is_space c then skip_space s' else s
  | EmptyString => EmptyString
  end.

(** The interpreter's default bound on the digits of a decimal literal
    ([sys.int_info.default_max_str_digits]). *)
Definition int_max_str_digits : nat := 4300.

(** Digits with single underscores between them.  [acc] is the value read
    so far, [nd] the number of digits read, [prev_us] tells that the last
    character read was an underscore.  Returns the value, the number of
    digits and the unread rest; [None] on a doubled or trailing
    underscore. *)
Fixpoint digits (s : string) (acc : Z) (nd : nat) (prev_us : bool)
  : option (Z * nat * string) :=
  match s with
  | String c s' =>
      if is_digit c then digits s' (10 * acc + digit_val c) (S nd) false
      else if Ascii.eqb c "_" then
             if prev_us then None else digits s' acc nd true
      else if prev_us then None else Some (acc, nd, s)
  | EmptyString => if prev_us then None else Some (acc, nd, EmptyString)
  end.

(** [int(s)] in base 10; [None] stands for the [ValueError] it raises. *)
Definition int (s : string) : option Z :=
  let s1 := skip_space s in
  let '(sign, s2) :=
    match s1 with
    | String "+" r => (1, r)
    | String "-" r => (-1, r)
    | _ => (1, s1)
    end in
  match s2 with
  | String "_" _ => None
  | _ =>
      match digits s2 0 O false with
      | Some (v, nd, rest) =>
          if (nd =? 0)%nat then None
          else if (int_max_str_digits <? nd)%nat then None
          else match skip_space rest with
               | EmptyString => Some (sign * v)
               | String _ _ => None
               end
      | None => None
      end
  end.

(** The number of the digits of the literal, when [int] refuses it for
    having more of them than the limit: the digits are counted, and the
    limit is checked, before what follows them is looked at. *)
Definition over_limit (s : string) : option nat :=
  let s1 := skip_space s in
  let s2 :=
    match s1 with
    | String "+" r => r
    | String "-" r => r
    | _ => s1
    end in
  match s2 with
  | String "_" _ => None
  | _ =>
      match digits s2 0 O false with
      | Some (_, nd, _) => if (int_max_str_digits <? nd)%nat then Some nd else None
      | None => None
      end
  end.

End PyStr.

(** ** Python values, exceptions and results *)

(** The values a lead record or a task payload holds. *)
Inductive pyval : Type :=
| PyNone
| PyBool (b : bool)
| PyInt (z : Z)
| PyFloat (f : float)
| PyStr (s : string)
| PyList (l : list pyval)
| PyDict (d : gmap string pyval).

(** [type(v).__name__] *)
Definition type_name (v : pyval) : string :=
  match v with
  | PyNone => "NoneType"
  | PyBool _ => "bool"
  | PyInt _ => "int"
  | PyFloat _ => "float"
  | PyStr _ => "str"
  | PyList _ => "list"
  | PyDict _ => "dict"
  end.

(** [bool(v)] *)
Definition truthy (v : pyval) : bool :=
  match v with
  | PyNone => false
  | PyBool b => b
  | PyInt z => negb (z =? 0)%Z
  | PyFloat f => negb (PrimFloat.eqb f 0%float)
  | PyStr s => negb (String.eqb s "")
  | PyList l => match l with [] => false | _ :: _ => true end
  | PyDict d => negb (size d =? 0)%nat
  end.

(** A raised exception, an instance of [Exception]: its class and the text
    [str(e)] gives.  The exceptions outside [Exception] (the
    [asyncio.CancelledError] of a cancelled await, [KeyboardInterrupt],
    [SystemExit]) are no values of this type: a computation of the model
    returns or raises an instance of [Exception], and so does every
    collaborator a property below is stated for. *)
Record Exception : Type := mkException { exc_class : string; exc_str : string }.

Inductive result (A : Type) : Type :=
| Ok (a : A)
| Raise (e : Exception).
Arguments Ok {A} a.
Arguments Raise {A} e.

#[global] Instance result_bind : MBind result :=
  fun A B (k : A -> result B) (r : result A) =>
    match r with
    | Ok a => k a
    | Raise e => Raise e
    end.

#[global] Instance result_ret : MRet result := fun A (a : A) => Ok a.

(** [v.lower()]: strings have the method, the other values of [pyval] raise
    [AttributeError]. *)
Definition py_lower (v : pyval) : result string :=
  match v with
  | PyStr s => Ok (PyStr.lower s)
  | _ => Raise (mkException "AttributeError"
                  ("'" ++ type_name v ++ "' object has no attribute 'lower'"))
  end.

(** [int(s)] on a string, with the [ValueError] of a bad literal or of a
    literal over the limit of digits. *)
Definition py_int (s : string) : result Z :=
  match PyStr.int s with
  | Some z => Ok z
  | None =>
      Raise (mkException "ValueError"
               match PyStr.over_limit s with
               | Some nd =>
                   "Exceeds the limit (4300 digits) for integer string conversion: value has "
                     ++ pretty (N.of_nat nd)
                     ++ " digits; use sys.set_int_max_str_digits() to increase the limit"
               | None =>
                   "invalid literal for int() with base 10: "
                     ++ PyStr.take 200 (PyStr.repr s)
               end)
  end.

(** ** The lead scorer: [AutonomousDecisionEngine.calculate_lead_score] *)

Abbreviation Lead := (gmap string pyval).

(** [d.get(key, default)] *)
Definition dict_get (d : Lead) (key : string) (default : pyval) : pyval :=
  match d !! key with
  | Some v => v
  | None => default
  end.

Module AutonomousDecisionEngine.

Definition high_value_titles : list string :=
  ["CEO"; "CTO"; "VP"; "Director"; "Head of"; "Chief"; "President"].

Definition target_industries : list string :=
  ["technology"; "software"; "ai"; "healthcare"; "fintech"; "saas"].

(** The company-size rule: what is added to the score, [None] when
    nothing is added. *)
Definition company_size_points (company_size : pyval) : result (option float) :=
  match company_size with
  | PyStr s =>
      if PyStr.contains "-" s then
        match PyStr.split "-" s !! 1%nat with
        | Some field =>
            max_size ← py_int field;
            Ok (if (200 <=? max_size)%Z then Some 0.25%float
                else if (50 <=? max_size)%Z then Some 0.15%float
                else None)
        | None => Raise (mkException "IndexError" "list index out of range")
        end
      else Ok None
  | _ => Ok None
  end.

Definition add_points (score : float) (p : option float) : float :=
  match p with
  | Some x => (score + x)%float
  | None => score
  end.

(** [min(score, 1.0)]: the second argument wins only when it is strictly
    smaller. *)
Definition py_min (a b : float) : float :=
  if PrimFloat.ltb b a then b else a.

Definition calculate_lead_score (lead : Lead) : result float :=
  let score := 0.0%float in
  (* Title scoring (35%) *)
  title ← py_lower (dict_get lead "title" (PyStr ""));
  let score :=
    if existsb (fun hvt => PyStr.contains (PyStr.lower hvt) title) high_value_titles
    then (score + 0.35)%float else score in
  (* Company size scoring (25%) *)
  size_points ← company_size_points (dict_get lead "company_size" (PyStr "0"));
  let score := add_points score size_points in
  (* Industry scoring (20%) *)
  industry ← py_lower (dict_get lead "industry" (PyStr ""));
  let score :=
    if existsb (fun ti => PyStr.contains ti industry) target_industries
    then (score + 0.20)%float else score in
  (* Recent activity scoring (20%) *)
  let score :=
    if truthy (dict_get lead "recent_activity" (PyBool false))
    then (score + 0.20)%float else score in
  Ok (py_min score 1.0%float).

End AutonomousDecisionEngine.

(** ** Stateful code: a state and exception monad

    A coroutine of the program is a function from the state it runs in to
    its outcome and the state it leaves: the value it returns or the
    exception it raises.  An [await] is a call. *)

Definition SE (S A : Type) : Type := S -> result A * S.

#[global] Instance SE_ret {S} : MRet (SE S) := fun A (a : A) s => (Ok a, s).

#[global] Instance SE_bind {S} : MBind (SE S) :=
  fun A B (k : A -> SE S B) (m : SE S A) s =>
    match m s with
    | (Ok a, s') => k a s'
    | (Raise e, s') => (Raise e, s')
    end.

Definition raise {S A} (e : Exception) : SE S A := fun s => (Raise e, s).

Definition lift_result {S A} (r : result A) : SE S A := fun s => (r, s).

Definition gets {S A} (f : S -> A) : SE S A := fun s => (Ok (f s), s).

Definition modify {S} (f : S -> S) : SE S unit := fun s => (Ok tt, f s).

(** [try: body except Exception as e: handler(e)].  Every [Raise] carries
    an instance of [Exception] and is caught.  An exception outside
    [Exception] would pass through the [except]; the model has none, so a
    property that rests on this handler speaks of bodies that return or
    raise an instance of [Exception]. *)
Definition try_except {S A} (body : SE S A) (handler : Exception -> SE S A) : SE S A :=
  fun s =>
    match body s with
    | (Ok a, s') => (Ok a, s')
    | (Raise e, s') => handler e s'
    end.

(** [try: body finally: final]: [final] runs whatever the outcome of [body]
    is, also when [body] returns a value; the outcome of [body] stands
    unless [final] raises. *)
Definition try_finally {S A} (body : SE S A) (final : SE S unit) : SE S A :=
  fun s =>
    let '(r, s') := body s in
    match final s' with
    | (Ok _, s'') => (r, s'')
    | (Raise e, s'') => (Raise e, s'')
    end.

(** ** The orchestrator: [UltraAutomatedOrchestrator] and [AutoErrorRecovery] *)

(** The records written through [logger]. *)
Inductive LogRecord : Type :=
| Info_starting_operation
    (* logger.info("Starting 98%+ Autonomous Operation Mode") *)
| Info_starting_revenue_cycle
    (* logger.info("Starting autonomous revenue cycle") *)
| Info_revenue_cycle_complete (current_revenue target : Z)
    (* logger.info(f"Revenue cycle complete - Current: ${..}, Target: ${..}") *)
| Warning_auto_recovering (attempt : Z) (error : string)
    (* logger.warning(f"Auto-recovering from revenue error (attempt {..}): {error}") *)
| Info_auto_recovered
    (* logger.info("Revenue error auto-recovered") *)
| Error_recovery_failed (recovery_error : string)
    (* logger.error(f"Revenue recovery failed: {recovery_error}") *)
| Error_recovery_exhausted (max_attempts : Z) (error : string).
    (* logger.error(f"Revenue error recovery failed after {..} attempts: {error}") *)

(** The calls made to the collaborators of the orchestrator, which are not
    part of the sources: the database, the revenue activities, the lead
    research and the alert mail. *)
Inductive Call : Type :=
| Call_get_daily_revenue
| Call_execute_revenue_strategy (target_gap : Z)
| Call_auto_follow_up_proposals
| Call_auto_nurture_warm_leads
| Call_auto_prioritize_revenue_activities
| Call_alternative_revenue_methods
| Call_send_manual_intervention_alert (alert_message : string)
| Call_auto_research_lead (lead : Lead)
| Call_cycle (name : string).

Inductive Event : Type :=
| Logged (r : LogRecord)
| Called (c : Call).

(** A job registered with the [schedule] module. *)
Record Job : Type := mkJob { job_every : string; job_callback : string }.

Section Orchestrator.

(** The state of the collaborators. *)
Context {W : Type}.

Record State : Type := mkState {
  recovery_attempts : gmap string Z;   (* AutoErrorRecovery.recovery_attempts *)
  jobs : list Job;                     (* the jobs of the schedule module *)
  world : W;
  trace : list Event                   (* what was logged and called, oldest first *)
}.

Abbreviation M := (SE State).

Definition emit (ev : Event) : M unit :=
  modify (fun st => mkState (recovery_attempts st) (jobs st) (world st) (trace st ++ [ev])).

Definition log (r : LogRecord) : M unit := emit (Logged r).

(** A call to a collaborator: the call is recorded, then the collaborator
    acts on its own state. *)
Definition on_world {A} (f : W -> result A * W) : M A :=
  fun st =>
    let '(r, w') := f (world st) in
    (r, mkState (recovery_attempts st) (jobs st) w' (trace st)).

Definition call {A} (c : Call) (f : W -> result A * W) : M A :=
  emit (Called c);; on_world f.

(** The collaborators. *)
Variable get_daily_revenue : W -> result Z * W.
Variable _execute_revenue_strategy : Z -> W -> result unit * W.
Variable _auto_follow_up_proposals : W -> result unit * W.
Variable _auto_nurture_warm_leads : W -> result unit * W.
Variable _auto_prioritize_revenue_activities : W -> result unit * W.
Variable _alternative_revenue_methods : W -> result unit * W.
Variable _send_manual_intervention_alert : string -> W -> result unit * W.
Variable _auto_research_lead : Lead -> W -> result Lead * W.
(** [str(datetime.now())] *)
Variable now : W -> string.

(** *** [AutoErrorRecovery] *)

(** Set in [__init__] and never assigned again. *)
Definition max_recovery_attempts : Z := 3.

Definition set_attempts (key : string) (n : Z) : M unit :=
  modify (fun st =>
    mkState (<[key := n]> (recovery_attempts st)) (jobs st) (world st) (trace st)).

(** [self.recovery_attempts[key]] *)
Definition get_attempts (key : string) : M Z :=
  attempts ← gets recovery_attempts;
  match attempts !! key with
  | Some n => mret n
  | None => raise (mkException "KeyError" (PyStr.repr key))
  end.

Definition nl : string := String (ascii_of_nat 10) "".

Definition alert_message (system error_str time : string) : string :=
  nl ++
  "        RARE MANUAL INTERVENTION REQUIRED (2% case)" ++ nl ++
  "        " ++ nl ++
  "        System: " ++ system ++ nl ++
  "        Error: " ++ error_str ++ nl ++
  "        Time: " ++ time ++ nl ++
  "        " ++ nl ++
  "        The AI has attempted automatic recovery but requires human oversight." ++ nl ++
  "        This represents the 2% of cases requiring manual attention." ++ nl ++
  "        ".

Definition _alert_for_manual_intervention (system : string) (error : Exception) : M unit :=
  time ← gets (fun st => now (world st));
  let alert_message := alert_message system (exc_str error) time in
  (* Send alert email *)
  call (Call_send_manual_intervention_alert alert_message)
       (_send_manual_intervention_alert alert_message).

Definition error_key (error : Exception) : string :=
  "revenue_" ++ PyStr.take 50 (exc_str error).

Definition handle_revenue_error (error : Exception) : M unit :=
  let error_key := error_key error in
  attempts ← gets recovery_attempts;
  (if bool_decide (attempts !! error_key = None)
   then set_attempts error_key 0 else mret tt);;
  n ← get_attempts error_key;
  set_attempts error_key (n + 1);;
  n ← get_attempts error_key;
  if (n <=? max_recovery_attempts)%Z then
    log (Warning_auto_recovering n (exc_str error));;
    (* Try alternative revenue generation methods *)
    try_except
      (call Call_alternative_revenue_methods _alternative_revenue_methods;;
       log Info_auto_recovered)
      (fun recovery_error => log (Error_recovery_failed (exc_str recovery_error)))
  else
    log (Error_recovery_exhausted max_recovery_attempts (exc_str error));;
    _alert_for_manual_intervention "revenue" error.

(** *** [UltraAutomatedOrchestrator] *)

Definition daily_revenue_target : Z := 1000.

(** The body of the [try] of [_autonomous_revenue_cycle]. *)
Definition revenue_steps : M unit :=
  (* 1. Check current revenue status *)
  current_revenue ← call Call_get_daily_revenue get_daily_revenue;
  let target_gap := daily_revenue_target - current_revenue in
  (if (0 <? target_gap)%Z then
     (* 2. Autonomous revenue optimization *)
     call (Call_execute_revenue_strategy target_gap)
          (_execute_revenue_strategy target_gap);;
     (* 3. Auto-follow up on pending proposals *)
     call Call_auto_follow_up_proposals _auto_follow_up_proposals;;
     (* 4. Auto-reach out to warm leads *)
     call Call_auto_nurture_warm_leads _auto_nurture_warm_leads;;
     (* 5. Auto-schedule high-value activities *)
     call Call_auto_prioritize_revenue_activities _auto_prioritize_revenue_activities
   else mret tt);;
  log (Info_revenue_cycle_complete current_revenue daily_revenue_target).

Definition _autonomous_revenue_cycle : M unit :=
  log Info_starting_revenue_cycle;;
  try_except revenue_steps (fun e => handle_revenue_error e).

(** The loop of [_auto_qualify_leads]; [qualified] is the list built so
    far.  A record is the dict the research returned with the two keys
    assigned, taken as a value: the source assigns into the object the
    research returned and appends that object, so that two records are one
    object when the research returns the same dict twice.  That sharing is
    not modelled; the properties below speak of the calls the loop makes,
    of the number of the records and of the exception that leaves it, none
    of the content of a record. *)
Fixpoint qualify_loop (leads : list Lead) (qualified : list Lead) : M (list Lead) :=
  match leads with
  | [] => mret qualified
  | lead :: rest =>
      (* AI scoring based on multiple factors *)
      score ← lift_result (AutonomousDecisionEngine.calculate_lead_score lead);
      if PrimFloat.leb 0.7%float score then
        (* Auto-research the lead *)
        enhanced_lead ← call (Call_auto_research_lead lead) (_auto_research_lead lead);
        let enhanced_lead := <["ai_score" := PyFloat score]> enhanced_lead in
        let enhanced_lead := <["auto_qualified" := PyBool true]> enhanced_lead in
        qualify_loop rest (qualified ++ [enhanced_lead])
      else qualify_loop rest qualified
  end.

Definition _auto_qualify_leads (leads : list Lead) : M (list Lead) :=
  qualify_loop leads [].

(** *** The entry point: [start_autonomous_operation] *)

Definition schedule_do (every callback : string) : M unit :=
  modify (fun st =>
    mkState (recovery_attempts st) (jobs st ++ [mkJob every callback])
            (world st) (trace st)).

Definition _setup_autonomous_schedules : M unit :=
  (* Revenue generation (every 2 hours) *)
  schedule_do "2 hours" "_autonomous_revenue_cycle";;
  (* Lead generation (every hour) *)
  schedule_do "1 hour" "_autonomous_lead_generation";;
  (* Content creation (every 3 hours) *)
  schedule_do "3 hours" "_autonomous_content_pipeline";;
  (* Opportunity hunting (every 4 hours) *)
  schedule_do "4 hours" "_autonomous_opportunity_scan";;
  (* Client management (every 30 minutes) *)
  schedule_do "30 minutes" "_autonomous_client_care";;
  (* System optimization (every 6 hours) *)
  schedule_do "6 hours" "_autonomous_system_optimization";;
  (* Weekly strategy (Mondays at 8 AM) *)
  schedule_do "monday at 08:00" "_weekly_strategic_briefing".

(** The awaitables handed to [asyncio.gather] are run one after the other
    in the order of the arguments, each to its end: the schedule of the
    event loop when no coroutine is suspended in between, which is what a
    coroutine of the model is (a function of the state).  Every awaitable
    runs, whatever the outcome of the others; the outcomes are collected
    in the order of the arguments.  Coroutines that suspend are interleaved
    by the event loop, and a failure then reaches the caller while the
    others are still pending; this is not modelled, and the only use made
    of [gather] below is that the exception of the one coroutine that fails
    is raised to the caller, and that the results are returned otherwise. *)
Fixpoint run_all {A} (aws : list (M A)) (st : State) : list (result A) * State :=
  match aws with
  | [] => ([], st)
  | aw :: rest =>
      let '(r, st') := aw st in
      let '(rs, st'') := run_all rest st' in
      (r :: rs, st'')
  end.

Fixpoint first_exception {A} (outcomes : list (result A)) : option Exception :=
  match outcomes with
  | [] => None
  | Raise e :: _ => Some e
  | Ok _ :: rest => first_exception rest
  end.

(** [await asyncio.gather] on the awaitables [aws].  With
    [return_exceptions=True] the exceptions are returned in the list of
    results, in the place of the values; without it (the default) the
    first exception is raised to the caller of [gather] and no result is
    returned. *)
Definition gather {A} (return_exceptions : bool) (aws : list (M A))
  : M (list (result A)) :=
  fun st =>
    let '(outcomes, st') := run_all aws st in
    if return_exceptions then (Ok outcomes, st')
    else match first_exception outcomes with
         | Some e => (Raise e, st')
         | None => (Ok outcomes, st')
         end.

(** The eight coroutines the entry point gathers.  Six of them are not
    defined in the sources; the two that are
    ([_autonomous_opportunity_hunting], [_autonomous_client_management])
    consist of calls to collaborators and to handlers that are not.  They
    are taken as coroutines of any behaviour, returning any value. *)
Variable _autonomous_revenue_generation : M pyval.
Variable _autonomous_lead_management : M pyval.
Variable _autonomous_content_creation : M pyval.
Variable _autonomous_opportunity_hunting : M pyval.
Variable _autonomous_client_management : M pyval.
Variable _autonomous_error_recovery : M pyval.
Variable _autonomous_optimization : M pyval.
Variable _weekly_autonomous_strategy : M pyval.

Definition gathered_cycles : list (M pyval) :=
  [ _autonomous_revenue_generation;
    _autonomous_lead_management;
    _autonomous_content_creation;
    _autonomous_opportunity_hunting;
    _autonomous_client_management;
    _autonomous_error_recovery;
    _autonomous_optimization;
    _weekly_autonomous_strategy ].

(** The result of [gather] is not bound: the coroutine returns [None]. *)
Definition start_autonomous_operation : M pyval :=
  log Info_starting_operation;;
  (* Setup autonomous schedules - no manual intervention needed *)
  _setup_autonomous_schedules;;
  (* Start parallel autonomous processes *)
  _ ← gather false gathered_cycles;
  mret PyNone.

End Orchestrator.
Arguments State W : clear implicits.

(** ** The agents: [complete_agent_implementations.py] *)

(** Modelled from the spec: the enum [AgentStatus] is declared in
    [full_agent_architecture], which is not part of the sources.  Its
    members are the four statuses of the spec's data model (pending,
    working, completed, error); the agents name [WORKING], [ERROR] and
    [COMPLETED]. *)
Inductive AgentStatus : Type := PENDING | WORKING | COMPLETED | ERROR.

(** Modelled from the spec: the class [Task] is declared in
    [full_agent_architecture] as well.  A task has a kind tag and a payload,
    a mapping of keys to values: the attributes [task_type] and [data] the
    agents read. *)
Record Task : Type := mkTask { task_type : string; data : gmap string pyval }.

(** [d[key]] on a dict *)
Definition dict_getitem (d : gmap string pyval) (key : string) : result pyval :=
  match d !! key with
  | Some v => Ok v
  | None => Raise (mkException "KeyError" (PyStr.repr key))
  end.

(** [v[key]] for a string key, on any value *)
Definition py_getitem (v : pyval) (key : string) : result pyval :=
  match v with
  | PyDict d => dict_getitem d key
  | PyStr _ => Raise (mkException "TypeError" "string indices must be integers, not 'str'")
  | PyList _ => Raise (mkException "TypeError" "list indices must be integers or slices, not str")
  | _ => Raise (mkException "TypeError" ("'" ++ type_name v ++ "' object is not subscriptable"))
  end.

Fixpoint chars (s : string) : list pyval :=
  match s with
  | EmptyString => []
  | String c s' => PyStr (String c "") :: chars s'
  end.

(** What [for x in v] runs through: the items of a list, the characters of
    a string, the keys of a dict.  The keys come in the order of the finite
    map, where the interpreter takes them in the order of their insertion,
    which a finite map does not keep; no property below iterates a dict. *)
Definition py_iter (v : pyval) : result (list pyval) :=
  match v with
  | PyList l => Ok l
  | PyStr s => Ok (chars s)
  | PyDict d => Ok ((fun kv => PyStr kv.1) <$> map_to_list d)
  | _ => Raise (mkException "TypeError" ("'" ++ type_name v ++ "' object is not iterable"))
  end.

(** [len(v)] *)
Definition py_len (v : pyval) : result Z :=
  match v with
  | PyList l => Ok (Z.of_nat (length l))
  | PyStr s => Ok (Z.of_nat (PyStr.strlen s))
  | PyDict d => Ok (Z.of_nat (size d))
  | _ => Raise (mkException "TypeError" ("object of type '" ++ type_name v ++ "' has no len()"))
  end.

(** [float(n)] for a length *)
Definition float_of_len (n : Z) : float := PrimFloat.of_uint63 (Uint63.of_Z n).

(** An agent: [self.status], every value assigned to it (oldest first), and
    the state [W] of the services the agent calls. *)
Record Agent (W : Type) : Type := mkAgent {
  status : AgentStatus;
  status_history : list AgentStatus;
  services : W
}.
Arguments mkAgent {W} _ _ _.
Arguments status {W} _.
Arguments status_history {W} _.
Arguments services {W} _.

(** [self.status = s] *)
Definition set_status {W} (s : AgentStatus) : SE (Agent W) unit :=
  modify (fun a => mkAgent s (status_history a ++ [s]) (services a)).

Definition on_services {W A} (f : W -> result A * W) : SE (Agent W) A :=
  fun a =>
    let '(r, w') := f (services a) in
    (r, mkAgent (status a) (status_history a) w').

Module PodcastBookingAgent.
Section Methods.

Context {W : Type}.
Abbreviation AM := (SE (Agent W)).

(** The method of the agent that is not part of the sources. *)
Variable _personalize_pitch : pyval -> pyval -> W -> result pyval * W.
(** [datetime.now().isoformat()] *)
Variable isoformat_now : W -> string.

Definition podcast_database : list pyval :=
  [ PyDict (<["name" := PyStr "AI Ethics Weekly"]>
             (<["host" := PyStr "Dr. Sarah Chen"]>
             (<["email" := PyStr "booking@aiethicsweekly.com"]>
             (<["audience_size" := PyInt 15000]>
             (<["topic_match" := PyStr "AI ethics"]>
             (<["last_episode_date" := PyStr "2024-01-15"]> ∅))))));
    PyDict (<["name" := PyStr "Inclusive Tech Leaders"]>
             (<["host" := PyStr "Marcus Johnson"]>
             (<["email" := PyStr "marcus@inclusivetechleaders.com"]>
             (<["audience_size" := PyInt 8500]>
             (<["topic_match" := PyStr "inclusive design"]>
             (<["last_episode_date" := PyStr "2024-01-10"]> ∅)))))) ].

Definition _find_relevant_podcasts (criteria : gmap string pyval) : AM (list pyval) :=
  (* Simulated podcast database search *)
  mret podcast_database.

Definition _get_default_pitch : string :=
  nl ++
    "        Subject: AI Governance Expert Available for Your Podcast" ++ nl ++
    "        " ++ nl ++
    "        Hi {host_name}," ++ nl ++
    "        " ++ nl ++
    "        I'm Dr. D" ++ String (ascii_of_nat 233) "" ++ "d" ++ String (ascii_of_nat 233) "" ++ " Tetsubayashi, and I've been following {podcast_name}. Your recent episode on {topic_match} really resonated with my work in AI governance and inclusive design." ++ nl ++
    "        " ++ nl ++
    "        As someone living with chronic illness while building AI governance frameworks, I bring a unique perspective on how technology can either exclude or uplift marginalized communities." ++ nl ++
    "        " ++ nl ++
    "        I'd love to share insights about:" ++ nl ++
    "        - The 54% gap between AI pilots and production (and how governance fixes it)" ++ nl ++
    "        - Designing AI systems that work for disabled users" ++ nl ++
    "        - My journey from chronic pain to building a $10M+ AI consultancy" ++ nl ++
    "        " ++ nl ++
    "        I can provide:" ++ nl ++
    "        - Actionable frameworks your audience can implement" ++ nl ++
    "        - Real stories of AI bias and how to prevent it" ++ nl ++
    "        - Free resources for inclusive AI development" ++ nl ++
    "        " ++ nl ++
    "        Available for recording within 2 weeks. Would this fit your show?" ++ nl ++
    "        " ++ nl ++
    "        Best," ++ nl ++
    "        Dr. D" ++ String (ascii_of_nat 233) "" ++ "d" ++ String (ascii_of_nat 233) "" ++ " Tetsubayashi" ++ nl ++
    "        AI Governance Expert & Disability Justice Advocate" ++ nl ++
    "        ".

Fixpoint pitch_loop (pitch_template : pyval) (podcasts results : list pyval)
  : AM (list pyval) :=
  match podcasts with
  | [] => mret results
  | podcast :: rest =>
      personalized_pitch ← on_services (_personalize_pitch pitch_template podcast);
      (* Simulate email sending *)
      name ← lift_result (py_getitem podcast "name");
      email ← lift_result (py_getitem podcast "email");
      sent_at ← gets (fun a => isoformat_now (services a));
      let result :=
        PyDict (<["podcast" := name]>
               (<["sent_to" := email]>
               (<["sent_at" := PyStr sent_at]>
               (<["pitch_content" := personalized_pitch]>
               (<["status" := PyStr "sent"]> ∅))))) in
      pitch_loop pitch_template rest (results ++ [result])
  end.

Definition _send_podcast_pitches (data : gmap string pyval) : AM (list pyval) :=
  podcasts ← lift_result (dict_getitem data "podcasts");
  let pitch_template := dict_get data "pitch_template" (PyStr _get_default_pitch) in
  podcasts ← lift_result (py_iter podcasts);
  pitch_loop pitch_template podcasts [].

Definition execute_task (task : Task) : AM pyval :=
  set_status WORKING;;
  try_finally
    (try_except
       (if String.eqb (task_type task) "find_podcasts" then
          podcasts ← _find_relevant_podcasts (data task);
          mret (PyDict (<["podcasts_found" := PyInt (Z.of_nat (length podcasts))]>
                       (<["podcasts" := PyList podcasts]> ∅)))
        else if String.eqb (task_type task) "pitch_podcast" then
          pitch_results ← _send_podcast_pitches (data task);
          mret (PyDict (<["pitches_sent" := PyInt (Z.of_nat (length pitch_results))]>
                       (<["results" := PyList pitch_results]> ∅)))
        else mret PyNone)
       (fun e =>
          set_status ERROR;;
          mret (PyDict (<["error" := PyStr (exc_str e)]> ∅))))
    (set_status COMPLETED).

End Methods.
End PodcastBookingAgent.

Module SENANUKimonoAgent.
Section Methods.

Context {W : Type}.
Abbreviation AM := (SE (Agent W)).

(** The methods of the agent that are not part of the sources. *)
Variable _send_order_confirmation : pyval -> pyval -> W -> result unit * W.
Variable _schedule_styling_session : gmap string pyval -> W -> result pyval * W.
Variable _styling_followup : gmap string pyval -> W -> result pyval * W.
(** [(datetime.now() + timedelta(days=21)).isoformat()] *)
Variable isoformat_in_21_days : W -> string.

Definition _calculate_custom_price (measurements fabrics : pyval) : result float :=
  let base_price := 450.0%float in  (* Base kimono price *)
  let custom_fee := 150.0%float in  (* Custom sizing fee *)
  n ← py_len fabrics;
  let fabric_premium := (float_of_len n * 75.0)%float in  (* Premium fabric fee *)
  Ok (base_price + custom_fee + fabric_premium)%float.

Definition _process_custom_order (data : gmap string pyval) : AM pyval :=
  (* Shopify integration for custom kimono orders *)
  let customer_measurements := dict_get data "measurements" (PyDict ∅) in
  let fabric_preferences := dict_get data "fabric_preferences" (PyList []) in
  customer_id ← lift_result (dict_getitem data "customer_id");
  estimated_delivery ← gets (fun a => isoformat_in_21_days (services a));
  price ← lift_result (_calculate_custom_price customer_measurements fabric_preferences);
  let order_details :=
    PyDict (<["customer_id" := customer_id]>
           (<["measurements" := customer_measurements]>
           (<["fabrics" := fabric_preferences]>
           (<["estimated_delivery" := PyStr estimated_delivery]>
           (<["price" := PyFloat price]>
           (<["status" := PyStr "confirmed"]> ∅)))))) in
  (* Send confirmation email *)
  customer_email ← lift_result (dict_getitem data "customer_email");
  on_services (_send_order_confirmation customer_email order_details);;
  mret order_details.

Definition execute_task (task : Task) : AM pyval :=
  set_status WORKING;;
  try_finally
    (try_except
       (if String.eqb (task_type task) "process_kimono_order" then
          order ← _process_custom_order (data task);
          mret (PyDict (<["order" := order]> (<["status" := PyStr "processed"]> ∅)))
        else if String.eqb (task_type task) "schedule_styling" then
          session ← on_services (_schedule_styling_session (data task));
          mret (PyDict (<["session" := session]> ∅))
        else if String.eqb (task_type task) "follow_up_styling" then
          followup ← on_services (_styling_followup (data task));
          mret (PyDict (<["followup" := followup]> ∅))
        else mret PyNone)
       (fun e =>
          set_status ERROR;;
          mret (PyDict (<["error" := PyStr (exc_str e)]> ∅))))
    (set_status COMPLETED).

End Methods.
End SENANUKimonoAgent.

(** ** The optimizer: [SelfOptimizingSystem._identify_optimizations] *)

(** The float of an integer of magnitude at most 2^53, which is exact. *)
Definition float_of_Z (n : Z) : float :=
  if (n <? 0)%Z then (- PrimFloat.of_uint63 (Uint63.of_Z (- n)))%float
  else PrimFloat.of_uint63 (Uint63.of_Z n).

(** [n < c] and [n > c] for an integer [n] and a float [c] of magnitude
    below 2^53, as the thresholds of the optimizer are: the interpreter
    compares the two numbers exactly.  An integer beyond 2^53 in magnitude
    is above or below every such float by its sign. *)
Definition int_lt_float (n : Z) (c : float) : bool :=
  if (Z.abs n <=? 2 ^ 53)%Z then PrimFloat.ltb (float_of_Z n) c else (n <? 0)%Z.

Definition int_gt_float (n : Z) (c : float) : bool :=
  if (Z.abs n <=? 2 ^ 53)%Z then PrimFloat.ltb c (float_of_Z n) else (0 <? n)%Z.

Definition unorderable (op : string) (v : pyval) : Exception :=
  mkException "TypeError"
    ("'" ++ op ++ "' not supported between instances of '" ++ type_name v
       ++ "' and 'float'").

(** [v < c] for a float threshold [c]: floats, integers and booleans
    compare with a float, the other values of [pyval] raise [TypeError]. *)
Definition py_lt_float (v : pyval) (c : float) : result bool :=
  match v with
  | PyFloat f => Ok (PrimFloat.ltb f c)
  | PyInt n => Ok (int_lt_float n c)
  | PyBool b => Ok (int_lt_float (if b then 1 else 0) c)
  | _ => Raise (unorderable "<" v)
  end.

(** [v > c] for a float threshold [c]. *)
Definition py_gt_float (v : pyval) (c : float) : result bool :=
  match v with
  | PyFloat f => Ok (PrimFloat.ltb c f)
  | PyInt n => Ok (int_gt_float n c)
  | PyBool b => Ok (int_gt_float (if b then 1 else 0) c)
  | _ => Raise (unorderable ">" v)
  end.

Module SelfOptimizingSystem.

(** The loop of [_identify_optimizations] over [performance_data.items()]:
    the pairs of the dict, in its order.  [optimizations] is the list built
    so far. *)
Fixpoint optimization_loop (items : list (string * pyval)) (optimizations : list pyval)
  : result (list pyval) :=
  match items with
  | [] => Ok optimizations
  | (agent_id, performance) :: rest =>
      success_rate ← py_getitem performance "success_rate";
      low ← py_lt_float success_rate 0.90%float;
      optimizations ←
        (if (low : bool) then
           current ← py_getitem performance "success_rate";
           Ok (optimizations ++
                 [PyDict (<["agent_id" := PyStr agent_id]>
                         (<["type" := PyStr "success_rate_optimization"]>
                         (<["current" := current]>
                         (<["target" := PyFloat 0.95%float]>
                         (<["method" := PyStr "error_pattern_analysis"]> ∅)))))])%list
         else Ok optimizations);
      response_time ← py_getitem performance "response_time";
      slow ← py_gt_float response_time 3.0%float;
      optimizations ←
        (if (slow : bool) then
           current ← py_getitem performance "response_time";
           Ok (optimizations ++
                 [PyDict (<["agent_id" := PyStr agent_id]>
                         (<["type" := PyStr "performance_optimization"]>
                         (<["current" := current]>
                         (<["target" := PyFloat 2.0%float]>
                         (<["method" := PyStr "caching_and_batching"]> ∅)))))])%list
         else Ok optimizations);
      optimization_loop rest optimizations
  end.

Definition _identify_optimizations (performance_data : list (string * pyval))
  : result (list pyval) :=
  optimization_loop performance_data [].

End SelfOptimizingSystem.


(** ** The other cycles of the orchestrator *)

(** What a name of a coroutine is bound to: a value, or the coroutine
    object that the call of an [async def] method gives when it is not
    awaited.  Nothing of the body of the method has run then. *)
Inductive pyobj : Type :=
| Value (v : pyval)
| CoroutineObject.

(** [o[key]]: a coroutine object has no items. *)
Definition subscript (o : pyobj) (key : string) : result pyval :=
  match o with
  | Value v => py_getitem v key
  | CoroutineObject =>
      Raise (mkException "TypeError" "'coroutine' object is not subscriptable")
  end.

(** The records these cycles write through [logger]. *)
Inductive CycleLog : Type :=
| Info_starting_lead_generation
    (* logger.info("Starting autonomous lead generation") *)
| Info_leads_generated (qualified : Z)
    (* logger.info(f"Generated {len(qualified_leads)} qualified leads automatically") *)
| Info_generating_weekly_briefing
    (* logger.info("Generating Weekly Strategic Briefing - MANUAL REVIEW REQUIRED") *)
| Info_weekly_briefing_generated.
    (* logger.info("Weekly briefing generated - 30-minute Monday review scheduled") *)

(** The calls these cycles make to methods that are not part of the
    sources. *)
Inductive CycleCall : Type :=
| Call_get_conversion_patterns
| Call_generate_apollo_leads (target : pyval)
| Call_generate_linkedin_leads (target : pyval)
| Call_generate_referral_leads (target : pyval)
| Call_generate_inbound_leads (target : pyval)
| Call_determine_contact_strategy (lead : Lead)
| Call_generate_contact_sequence (lead : Lead) (contact_strategy : pyval)
| Call_schedule_contact_sequence (lead : Lead) (messages timing : pyval)
| Call_handle_lead_generation_error (e : Exception)
| Call_get_weekly_revenue
| Call_get_weekly_leads
| Call_get_weekly_content_metrics
| Call_get_opportunity_pipeline
| Call_get_client_metrics
| Call_get_system_performance
| Call_generate_priority_actions (weekly_report : pyval)
| Call_save_weekly_briefing (briefing : pyval)
| Call_auto_implement_strategy_changes (changes : pyval)
| Call_handle_strategy_error (e : Exception)
| Call_get_leads_ready_for_proposals
| Call_generate_custom_proposal (lead : pyval)
| Call_send_proposal_automatically (lead proposal : pyval)
| Call_schedule_proposal_followup (lead proposal : pyval)
| Call_fetch_new_emails
| Call_analyze_email_intent (email : pyval)
| Call_generate_email_response (email intent : pyval)
| Call_send_email_response (email response : pyval)
| Call_schedule_auto_followup (email timing : pyval).

Inductive Note : Type :=
| Noted (r : CycleLog)
| Served (c : CycleCall).

Section Cycles.

(** The state of the collaborators; the journal of what these cycles log
    and call is kept beside it. *)
Context {W : Type}.

Abbreviation Journaled := (list Note * W)%type.
Abbreviation MJ := (SE (State Journaled)).

Definition note (n : Note) : MJ unit :=
  on_world (fun jw : Journaled => (Ok tt, ((jw.1 ++ [n])%list, jw.2))).

(** The collaborator acts on its own state and leaves the journal alone. *)
Definition beside_journal {A} (f : W -> result A * W) (jw : Journaled)
  : result A * Journaled :=
  let '(r, w') := f jw.2 in (r, (jw.1, w')).

(** A call of a collaborator: the call is noted, then the collaborator
    acts. *)
Definition serve {A} (c : CycleCall) (f : W -> result A * W) : MJ A :=
  note (Served c);; on_world (beside_journal f).

(** The collaborators. *)
Variable get_conversion_patterns : W -> result pyval * W.
Variable _generate_apollo_leads : pyval -> W -> result (list Lead) * W.
Variable _generate_linkedin_leads : pyval -> W -> result (list Lead) * W.
Variable _generate_referral_leads : pyval -> W -> result (list Lead) * W.
Variable _generate_inbound_leads : pyval -> W -> result (list Lead) * W.
Variable _auto_research_lead : Lead -> W -> result Lead * W.
Variable determine_contact_strategy : Lead -> W -> result pyval * W.
Variable _generate_contact_sequence : Lead -> pyval -> W -> result pyval * W.
Variable _schedule_contact_sequence : Lead -> pyval -> pyval -> W -> result unit * W.
Variable handle_lead_generation_error : Exception -> W -> result unit * W.

(** *** [_autonomous_lead_generation] *)

Fixpoint _auto_start_contact_sequences (leads : list Lead) : MJ unit :=
  match leads with
  | [] => mret tt
  | lead :: rest =>
      (* AI determines optimal contact strategy *)
      contact_strategy ← serve (Call_determine_contact_strategy lead)
                               (determine_contact_strategy lead);
      (* Auto-generate personalized messages *)
      messages ← serve (Call_generate_contact_sequence lead contact_strategy)
                       (_generate_contact_sequence lead contact_strategy);
      (* Auto-schedule and send messages *)
      timing ← lift_result (py_getitem contact_strategy "timing");
      serve (Call_schedule_contact_sequence lead messages timing)
            (_schedule_contact_sequence lead messages timing);;
      _auto_start_contact_sequences rest
  end.

(** [for result in results: if isinstance(result, list): all_leads.extend(result)]:
    the results of the lead sources that are lists, one after the other;
    the exceptions among the results are passed over. *)
Fixpoint extend_with_lists (results : list (result (list Lead))) : list Lead :=
  match results with
  | [] => []
  | Ok leads :: rest => (leads ++ extend_with_lists rest)%list
  | Raise _ :: rest => extend_with_lists rest
  end.

Definition lead_generation_steps : MJ unit :=
  (* Smart lead generation based on recent conversion data *)
  conversion_data ← serve Call_get_conversion_patterns get_conversion_patterns;
  (* calculate_optimal_lead_targets is an async def and this call of it is
     not awaited *)
  let optimal_targets := CoroutineObject in
  (* Generate leads across multiple channels simultaneously *)
  apollo ← lift_result (subscript optimal_targets "apollo");
  linkedin ← lift_result (subscript optimal_targets "linkedin");
  referrals ← lift_result (subscript optimal_targets "referrals");
  inbound ← lift_result (subscript optimal_targets "inbound");
  let lead_tasks :=
    [ serve (Call_generate_apollo_leads apollo) (_generate_apollo_leads apollo);
      serve (Call_generate_linkedin_leads linkedin) (_generate_linkedin_leads linkedin);
      serve (Call_generate_referral_leads referrals) (_generate_referral_leads referrals);
      serve (Call_generate_inbound_leads inbound) (_generate_inbound_leads inbound) ] in
  results ← gather true lead_tasks;
  (* Auto-qualify and score leads *)
  let all_leads := extend_with_lists results in
  qualified_leads ← _auto_qualify_leads (fun lead => beside_journal (_auto_research_lead lead))
                                       all_leads;
  (* Auto-initiate contact sequences *)
  _auto_start_contact_sequences qualified_leads;;
  note (Noted (Info_leads_generated (Z.of_nat (length qualified_leads)))).

Definition _autonomous_lead_generation : MJ unit :=
  note (Noted Info_starting_lead_generation);;
  try_except lead_generation_steps
    (fun e => serve (Call_handle_lead_generation_error e) (handle_lead_generation_error e)).

(** *** [_weekly_strategic_briefing] *)

Variable get_weekly_revenue : W -> result pyval * W.
Variable get_weekly_leads : W -> result pyval * W.
Variable get_weekly_content_metrics : W -> result pyval * W.
Variable get_opportunity_pipeline : W -> result pyval * W.
Variable get_client_metrics : W -> result pyval * W.
Variable get_system_performance : W -> result pyval * W.
Variable generate_priority_actions : pyval -> W -> result pyval * W.
Variable save_weekly_briefing : pyval -> W -> result unit * W.
Variable _auto_implement_strategy_changes : pyval -> W -> result unit * W.
Variable handle_strategy_error : Exception -> W -> result unit * W.
(** [datetime.now().strftime("%B %d, %Y")] *)
Variable week_of_now : W -> string.

Definition weekly_briefing_steps : MJ unit :=
  (* AI generates comprehensive weekly report *)
  revenue_performance ← serve Call_get_weekly_revenue get_weekly_revenue;
  lead_metrics ← serve Call_get_weekly_leads get_weekly_leads;
  content_performance ← serve Call_get_weekly_content_metrics get_weekly_content_metrics;
  opportunity_pipeline ← serve Call_get_opportunity_pipeline get_opportunity_pipeline;
  client_satisfaction ← serve Call_get_client_metrics get_client_metrics;
  system_performance ← serve Call_get_system_performance get_system_performance;
  let weekly_report :=
    PyDict (<["revenue_performance" := revenue_performance]>
           (<["lead_metrics" := lead_metrics]>
           (<["content_performance" := content_performance]>
           (<["opportunity_pipeline" := opportunity_pipeline]>
           (<["client_satisfaction" := client_satisfaction]>
           (<["system_performance" := system_performance]> ∅)))))) in
  (* AI generates strategic recommendations: generate_weekly_strategy is an
     async def and this call of it is not awaited *)
  let strategic_recommendations := CoroutineObject in
  (* AI generates priority actions for the week *)
  priority_actions ← serve (Call_generate_priority_actions weekly_report)
                           (generate_priority_actions weekly_report);
  (* Save briefing for Monday review (ONLY manual touchpoint) *)
  week_of ← gets (fun st : State Journaled => week_of_now (world st).2);
  executive_summary ← lift_result (subscript strategic_recommendations "summary");
  recommendations ← lift_result (subscript strategic_recommendations "recommendations");
  ai_decisions_made ← lift_result (subscript strategic_recommendations "ai_decisions");
  manual_review_required ← lift_result (subscript strategic_recommendations "manual_items");
  let briefing :=
    PyDict (<["week_of" := PyStr week_of]>
           (<["executive_summary" := executive_summary]>
           (<["key_metrics" := weekly_report]>
           (<["strategic_recommendations" := recommendations]>
           (<["priority_actions" := priority_actions]>
           (<["ai_decisions_made" := ai_decisions_made]>
           (<["manual_review_required" := manual_review_required]> ∅))))))) in
  serve (Call_save_weekly_briefing briefing) (save_weekly_briefing briefing);;
  (* Auto-implement low-risk strategic changes *)
  auto_implement ← lift_result (subscript strategic_recommendations "auto_implement");
  serve (Call_auto_implement_strategy_changes auto_implement)
        (_auto_implement_strategy_changes auto_implement);;
  note (Noted Info_weekly_briefing_generated).

Definition _weekly_strategic_briefing : MJ unit :=
  note (Noted Info_generating_weekly_briefing);;
  try_except weekly_briefing_steps
    (fun e => serve (Call_handle_strategy_error e) (handle_strategy_error e)).

(** *** [_auto_generate_proposals] *)

Variable get_leads_ready_for_proposals : W -> result (list pyval) * W.
Variable _generate_custom_proposal : pyval -> W -> result pyval * W.
Variable _send_proposal_automatically : pyval -> pyval -> W -> result unit * W.
Variable _schedule_proposal_followup : pyval -> pyval -> W -> result unit * W.



(** *** [_auto_respond_to_emails] *)

Variable _fetch_new_emails : W -> result (list pyval) * W.
Variable analyze_email_intent : pyval -> W -> result pyval * W.
Variable _generate_email_response : pyval -> pyval -> W -> result pyval * W.
Variable _send_email_response : pyval -> pyval -> W -> result unit * W.
Variable _schedule_auto_followup : pyval -> pyval -> W -> result unit * W.



End Cycles.



(** * Vocabulary of the properties *)

Module LeadScorerFacts.
Import AutonomousDecisionEngine.

(** A score between 0.0 and 1.0, in the order of the floats. *)
Definition in_unit_interval (s : float) : Prop :=
  PrimFloat.leb 0%float s = true /\ PrimFloat.leb s 1%float = true.

(** The three outcomes of the company-size rule. *)
Definition size_points_value (p : option float) : Prop :=
  p = None \/ p = Some 0.25%float \/ p = Some 0.15%float.

(** The score as a function of what the four rules found. *)
Definition score_of (title_match : bool) (size_points : option float)
  (industry_match recent_activity : bool) : float :=
  let score := 0.0%float in
  let score := if title_match then (score + 0.35)%float else score in
  let score := add_points score size_points in
  let score := if industry_match then (score + 0.20)%float else score in
  let score := if recent_activity then (score + 0.20)%float else score in
  py_min score 1.0%float.

(** The field is a string, or the record does not have it. *)
Definition str_or_absent (v : option pyval) : bool :=
  match v with
  | None | Some (PyStr _) => true
  | Some _ => false
  end.

(** The company size is not a string with a ['-'], or the text after its
    first ['-'] (up to the next one) is a literal [int] accepts. *)
Definition size_field_parses (v : option pyval) : bool :=
  match v with
  | Some (PyStr s) =>
      if PyStr.contains "-" s then
        match PyStr.split "-" s !! 1%nat with
        | Some field => match PyStr.int field with Some _ => true | None => false end
        | None => false
        end
      else true
  | _ => true
  end.

(** The leads the scorer returns a score for. *)
Definition scorable (lead : Lead) : bool :=
  str_or_absent (lead !! "title")
  && size_field_parses (lead !! "company_size")
  && str_or_absent (lead !! "industry").

(** No seniority keyword in the title, no target industry, no recent
    activity. *)
Definition unmatched (lead : Lead) : bool :=
  match lead !! "title" with
  | None => true
  | Some (PyStr t) =>
      negb (existsb (fun hvt => PyStr.contains (PyStr.lower hvt) (PyStr.lower t))
                    high_value_titles)
  | Some _ => false
  end
  && match lead !! "industry" with
     | None => true
     | Some (PyStr i) =>
         negb (existsb (fun ti => PyStr.contains ti (PyStr.lower i)) target_industries)
     | Some _ => false
     end
  && negb (truthy (dict_get lead "recent_activity" (PyBool false))).

Definition vp_of_engineering : Lead :=
  <["title" := PyStr "VP of Engineering"]>
    (<["company_size" := PyStr "50-500"]>
      (<["industry" := PyStr "SaaS"]>
        (<["recent_activity" := PyBool true]> ∅))).

Definition unknown_size_lead : Lead :=
  <["title" := PyStr "Intern"]>
    (<["company_size" := PyStr "unknown"]>
      (<["industry" := PyStr "Farming"]> ∅)).

Definition small_to_medium_lead : Lead :=
  <["title" := PyStr "CEO"]> (<["company_size" := PyStr "small-medium"]> ∅).

Definition open_ended_size_lead : Lead :=
  <["company_size" := PyStr "500-"]> ∅.

Definition analyst_lead : Lead :=
  <["title" := PyStr "Analyst"]>
    (<["company_size" := PyStr "1-10"]> (<["industry" := PyStr "Retail"]> ∅)).

End LeadScorerFacts.


(** ** Recovery *)

Module RecoveryFacts.
Section Facts.

Context {W : Type}.
Variable alt : W -> result unit * W.
Variable alert : string -> W -> result unit * W.
Variable now : W -> string.

(** The failures counted so far under a key: 0 when the key is not in the
    dict. *)
Definition attempts_of (st : State W) (key : string) : Z :=
  default 0 (recovery_attempts st !! key).

(** What is logged after the fallback. *)
Definition recovery_outcome (outcome : result unit) : LogRecord :=
  match outcome with
  | Ok _ => Info_auto_recovered
  | Raise e => Error_recovery_failed (exc_str e)
  end.

(** A failure below the ceiling: the counter moves, the fallback is tried
    and its outcome logged; the handler returns. *)
Definition recover (error : Exception) (st : State W) : result unit * State W :=
  let key := error_key error in
  let n := attempts_of st key + 1 in
  let '(outcome, w') := alt (world st) in
  (Ok tt,
   mkState (<[key := n]> (recovery_attempts st)) (jobs st) w'
     (trace st ++ [Logged (Warning_auto_recovering n (exc_str error));
                   Called Call_alternative_revenue_methods;
                   Logged (recovery_outcome outcome)])).

(** A failure above the ceiling: the counter moves and the alert is sent;
    the outcome of the handler is the outcome of the alert. *)
Definition escalate (error : Exception) (st : State W) : result unit * State W :=
  let key := error_key error in
  let n := attempts_of st key + 1 in
  let message := alert_message "revenue" (exc_str error) (now (world st)) in
  let '(outcome, w') := alert message (world st) in
  (outcome,
   mkState (<[key := n]> (recovery_attempts st)) (jobs st) w'
     (trace st ++ [Logged (Error_recovery_exhausted max_recovery_attempts (exc_str error));
                   Called (Call_send_manual_intervention_alert message)])).


(** The state after the failures [errors], handled one after the other. *)
Fixpoint after_failures (errors : list Exception) (st : State W) : State W :=
  match errors with
  | [] => st
  | e :: rest => after_failures rest (handle_revenue_error alt alert now e st).2
  end.

(** What was logged and called between two states. *)
Definition events_since (st st' : State W) : list Event :=
  drop (length (trace st)) (trace st').

Definition is_alert (ev : Event) : bool :=
  match ev with
  | Called (Call_send_manual_intervention_alert _) => true
  | _ => false
  end.

Definition is_fallback (ev : Event) : bool :=
  match ev with
  | Called Call_alternative_revenue_methods => true
  | _ => false
  end.


End Facts.

(** A world for the examples: the alert mails sent so far. *)
Definition Outbox : Type := list string.

Definition fallback_ok (w : Outbox) : result unit * Outbox := (Ok tt, w).

(** A fallback that acts: it mails an offer. *)
Definition fallback_offer (w : Outbox) : result unit * Outbox :=
  (Ok tt, (w ++ ["offer to the warm leads"])%list).

Definition send_alert (message : string) (w : Outbox) : result unit * Outbox :=
  (Ok tt, (w ++ [message])%list).

Definition fixed_clock (w : Outbox) : string := "2024-01-15 08:00:00".

Definition initial_state : State Outbox := mkState ∅ [] [] [].

Definition timeout_error : Exception :=
  mkException "TimeoutError" "database timed out".

Definition quota_error : Exception :=
  mkException "RuntimeError" "mail quota exceeded".

End RecoveryFacts.


(** ** Qualification *)

Module QualificationFacts.
Import AutonomousDecisionEngine.

(** The lead has a score, and it is at least 0.7. *)
Definition qualifies (lead : Lead) : bool :=
  match calculate_lead_score lead with
  | Ok score => PrimFloat.leb 0.7%float score
  | Raise _ => false
  end.

(** A research for the examples: the lead comes back as it is. *)
Definition no_research (lead : Lead) (w : unit) : result Lead * unit := (Ok lead, w).

Definition idle : State unit := mkState ∅ [] tt [].

End QualificationFacts.


(** ** The entry point and the cycles *)

Module OperationFacts.

(** Cycles for the examples: one that returns its summary, one that fails. *)
Definition cycle_done (name : string) : SE (State unit) pyval :=
  emit (Called (Call_cycle name));; mret (PyStr (name ++ " done")).

Definition cycle_failing (name : string) (e : Exception) : SE (State unit) pyval :=
  emit (Called (Call_cycle name));; raise e.

Definition feed_error : Exception :=
  mkException "ConnectionError" "content feed unreachable".

Definition at_rest : State unit := mkState ∅ [] tt [].

End OperationFacts.


(** ** The agents *)

Module AgentFacts.

(** The moves of the life cycle: pending to working, working to completed,
    working to error. *)
Definition forward (from to : AgentStatus) : bool :=
  match from, to with
  | PENDING, WORKING => true
  | WORKING, COMPLETED => true
  | WORKING, ERROR => true
  | _, _ => false
  end.

(** Every assignment in [history], made one after the other from the
    status [from], is a move of the life cycle. *)
Fixpoint only_forward (from : AgentStatus) (history : list AgentStatus) : bool :=
  match history with
  | [] => true
  | to :: rest => forward from to && only_forward to rest
  end.

(** Services for the examples. *)
Definition pitch_as_is (pitch_template podcast : pyval) (w : unit) : result pyval * unit :=
  (Ok pitch_template, w).

Definition morning (w : unit) : string := "2024-01-15T08:00:00".

Definition new_agent : Agent unit := mkAgent PENDING [] tt.

Definition transcribe_task : Task := mkTask "transcribe_episode" ∅.

Definition book_guest_task : Task :=
  mkTask "book_guest" (<["guest" := PyStr "Dr. Sarah Chen"]> ∅).

(** A pitch task without the list of podcasts. *)
Definition pitch_task_without_podcasts : Task := mkTask "pitch_podcast" ∅.

(** The run of the pitch task without its podcasts, on a new agent. *)
Definition failed_pitch_run : result pyval * Agent unit :=
  PodcastBookingAgent.execute_task pitch_as_is morning
    pitch_task_without_podcasts new_agent.

End AgentFacts.


(** ** More on the lead scorer *)

Module ScoringFacts.
Import AutonomousDecisionEngine.

(** The title rule fires: the title holds one of the seniority keywords,
    whatever the case. *)
Definition title_fires (lead : Lead) : bool :=
  match lead !! "title" with
  | Some (PyStr t) =>
      existsb (fun hvt => PyStr.contains (PyStr.lower hvt) (PyStr.lower t)) high_value_titles
  | _ => false
  end.

(** The industry rule fires. *)
Definition industry_fires (lead : Lead) : bool :=
  match lead !! "industry" with
  | Some (PyStr i) =>
      existsb (fun ti => PyStr.contains ti (PyStr.lower i)) target_industries
  | _ => false
  end.

(** The company-size rule fires: it adds 0.25 or 0.15. *)
Definition size_fires (lead : Lead) : bool :=
  match company_size_points (dict_get lead "company_size" (PyStr "0")) with
  | Ok (Some _) => true
  | _ => false
  end.

(** The activity rule fires. *)
Definition activity_fires (lead : Lead) : bool :=
  truthy (dict_get lead "recent_activity" (PyBool false)).

(** How many of the three rules other than the title rule fire. *)
Definition other_rules_fired (lead : Lead) : nat :=
  (Nat.b2n (size_fires lead) + Nat.b2n (industry_fires lead)
   + Nat.b2n (activity_fires lead))%nat.

Definition untitled_lead : Lead :=
  <["title" := PyNone]> (<["company_size" := PyStr "50-500"]> ∅).

Definition director_lead : Lead :=
  <["title" := PyStr "Director of Sales"]>
    (<["company_size" := PyStr "11-60"]>
      (<["industry" := PyStr "Fintech"]> ∅)).

(** The string has no hyphen. *)
Definition hyphen_free (s : string) : Prop := PyStr.contains "-" s = false.

(** The same lead with another company size. *)
Definition with_company_size (size : string) (lead : Lead) : Lead :=
  <["company_size" := PyStr size]> lead.

End ScoringFacts.


(** ** The ledger of the recovery handler *)

Module LedgerFacts.
Import RecoveryFacts.

(** How many of the failures fall under the key. *)
Definition failures_under (key : string) (errors : list Exception) : nat :=
  length (List.filter (fun e => String.eqb (error_key e) key) errors).

Definition alerts_in (events : list Event) : nat :=
  length (List.filter is_alert events).

Definition fallbacks_in (events : list Event) : nat :=
  length (List.filter is_fallback events).

(** A fallback that fails. *)
Definition fallback_down (w : Outbox) : result unit * Outbox :=
  (Raise (mkException "ConnectionError" "payment provider unreachable"), w).

(** The same text as [timeout_error], raised as another class. *)
Definition timeout_as_os_error : Exception :=
  mkException "OSError" "database timed out".

End LedgerFacts.


(** ** The revenue cycle *)

Module RevenueCycleFacts.
Import RecoveryFacts.


(** Collaborators for the examples, on the alert mails sent so far. *)
Definition revenue_is (amount : Z) (w : Outbox) : result Z * Outbox := (Ok amount, w).

Definition revenue_unread (w : Outbox) : result Z * Outbox :=
  (Raise (mkException "TimeoutError" "database timed out"), w).

Definition strategy_fails (target_gap : Z) (w : Outbox) : result unit * Outbox :=
  (Raise (mkException "RuntimeError" "no strategy available"), w).

Definition strategy_runs (target_gap : Z) (w : Outbox) : result unit * Outbox := (Ok tt, w).

Definition activity_runs (w : Outbox) : result unit * Outbox := (Ok tt, w).

End RevenueCycleFacts.


(** ** The research of the qualified leads *)

Module ResearchFacts.
Import AutonomousDecisionEngine QualificationFacts.


(** A research that fails. *)
Definition research_down (lead : Lead) (w : unit) : result Lead * unit :=
  (Raise (mkException "ConnectionError" "research service unreachable"), w).

(** A research that fails on the leads without a company size. *)
Definition research_needs_size (lead : Lead) (w : unit) : result Lead * unit :=
  match lead !! "company_size" with
  | Some _ => (Ok lead, w)
  | None => (Raise (mkException "KeyError" "'company_size'"), w)
  end.

Definition founder_lead : Lead :=
  <["title" := PyStr "Chief Executive"]>
    (<["industry" := PyStr "Healthcare"]> (<["recent_activity" := PyBool true]> ∅)).

End ResearchFacts.


(** ** The runs of the agents *)

Module AgentRunFacts.
Import AgentFacts.

(** The coroutine assigns nothing to [self.status]. *)
Definition keeps_status {W A} (m : SE (Agent W) A) : Prop :=
  forall a, status (m a).2 = status a /\ status_history (m a).2 = status_history a.

(** What [execute_task] returns from its [except] branch. *)
Definition error_reply (e : Exception) : pyval :=
  PyDict (<["error" := PyStr (exc_str e)]> ∅).

(** The price of a kimono with [n] fabrics, as a float: 600 + 75 n. *)
Definition price_for (n : Z) : float := PrimFloat.of_uint63 (Uint63.of_Z (600 + 75 * n)).

(** The order [_process_custom_order] builds. *)
Definition order_of (data : gmap string pyval) (customer_id : pyval)
  (estimated_delivery : string) (n : Z) : pyval :=
  PyDict (<["customer_id" := customer_id]>
         (<["measurements" := dict_get data "measurements" (PyDict ∅)]>
         (<["fabrics" := dict_get data "fabric_preferences" (PyList [])]>
         (<["estimated_delivery" := PyStr estimated_delivery]>
         (<["price" := PyFloat (price_for n)]>
         (<["status" := PyStr "confirmed"]> ∅)))))).

(** The podcast is a dict with a name and an email. *)
Definition pitchable (podcast : pyval) : bool :=
  match podcast with
  | PyDict d =>
      match d !! "name", d !! "email" with
      | Some _, Some _ => true
      | _, _ => false
      end
  | _ => false
  end.

(** [result] is the record of the pitch sent to [podcast]. *)
Definition pitched (podcast result : pyval) : Prop :=
  exists d r,
    podcast = PyDict d /\ result = PyDict r
    /\ r !! "podcast" = d !! "name"
    /\ r !! "sent_to" = d !! "email"
    /\ r !! "status" = Some (PyStr "sent").

(** Services for the examples: the mails sent so far, as (recipient,
    content) pairs. *)
Definition Mailbox : Type := list (pyval * pyval).

Definition confirm_by_mail (customer_email order_details : pyval) (w : Mailbox)
  : result unit * Mailbox :=
  (Ok tt, (w ++ [(customer_email, order_details)])%list).

Definition no_session (data : gmap string pyval) (w : Mailbox) : result pyval * Mailbox :=
  (Raise (mkException "RuntimeError" "no stylist available"), w).

Definition in_three_weeks (w : Mailbox) : string := "2024-02-05T08:00:00".

Definition kimono_agent : Agent Mailbox := mkAgent PENDING [] [].

Definition order_data : gmap string pyval :=
  <["customer_id" := PyStr "c-17"]>
    (<["customer_email" := PyStr "mika@example.org"]>
      (<["fabric_preferences" := PyList [PyStr "silk"; PyStr "linen"]]> ∅)).

Definition order_data_without_email : gmap string pyval :=
  <["customer_id" := PyStr "c-17"]> ∅.

Definition nameless_podcast : pyval :=
  PyDict (<["email" := PyStr "host@example.org"]> ∅).

End AgentRunFacts.


(** ** The optimizer *)

Module OptimizerFacts.

Definition is_number (v : pyval) : bool :=
  match v with
  | PyFloat _ | PyInt _ | PyBool _ => true
  | _ => false
  end.

(** The record of an agent is a dict with both metrics, each a number. *)
Definition measured (item : string * pyval) : bool :=
  match item.2 with
  | PyDict d =>
      match d !! "success_rate", d !! "response_time" with
      | Some s, Some r => is_number s && is_number r
      | _, _ => false
      end
  | _ => false
  end.

(** Neither metric is on the wrong side of its threshold: the success rate
    is not below 0.90 and the response time not above 3.0. *)
Definition healthy (item : string * pyval) : bool :=
  match item.2 with
  | PyDict d =>
      match d !! "success_rate", d !! "response_time" with
      | Some s, Some r =>
          match py_lt_float s 0.90%float, py_gt_float r 3.0%float with
          | Ok false, Ok false => true
          | _, _ => false
          end
      | _, _ => false
      end
  | _ => false
  end.

(** The optimisation moves its metric to the better side: a success rate
    below 0.90 to the target 0.95 above it, a response time above 3.0 to
    the target 2.0 below it. *)
Definition improving (optimization : pyval) : Prop :=
  exists d current,
    optimization = PyDict d
    /\ d !! "current" = Some current
    /\ ((d !! "type" = Some (PyStr "success_rate_optimization")
         /\ d !! "target" = Some (PyFloat 0.95%float)
         /\ py_lt_float current 0.95%float = Ok true)
        \/ (d !! "type" = Some (PyStr "performance_optimization")
            /\ d !! "target" = Some (PyFloat 2.0%float)
            /\ py_gt_float current 2.0%float = Ok true)).

(** The agent the optimisation is for. *)
Definition agent_of (optimization : pyval) : option pyval :=
  match optimization with
  | PyDict d => d !! "agent_id"
  | _ => None
  end.

(** [group] is what one record of the input calls for: at most two
    optimisations, each for the agent of the record, and none when the
    record is healthy. *)
Definition called_for (item : string * pyval) (group : list pyval) : Prop :=
  (length group <= 2)%nat
  /\ Forall (fun o => agent_of o = Some (PyStr item.1)) group
  /\ (healthy item = true -> group = []).

Definition metrics (success_rate response_time : float) : pyval :=
  PyDict (<["success_rate" := PyFloat success_rate]>
         (<["response_time" := PyFloat response_time]> ∅)).

Definition fleet : list (string * pyval) :=
  [("prospector", metrics 0.97 1.2); ("closer", metrics 0.82 4.5);
   ("voice", metrics 0.93 3.4)].

End OptimizerFacts.


(** ** The cycles that await no targets *)

Module CycleFacts.

(** What was noted in the journal between two states. *)
Definition journal_since {W} (st st' : State (list Note * W)) : list Note :=
  drop (length (world st).1) (world st').1.

(** The error of the subscript of a coroutine object. *)
Definition coroutine_error : Exception :=
  mkException "TypeError" "'coroutine' object is not subscriptable".

(** The calls of the lead sources, of the research's contact sequences,
    and what else comes after the targets in the lead generation. *)
Definition is_lead_work (n : Note) : bool :=
  match n with
  | Served (Call_generate_apollo_leads _) | Served (Call_generate_linkedin_leads _)
  | Served (Call_generate_referral_leads _) | Served (Call_generate_inbound_leads _)
  | Served (Call_determine_contact_strategy _)
  | Served (Call_generate_contact_sequence _ _)
  | Served (Call_schedule_contact_sequence _ _ _)
  | Noted (Info_leads_generated _) => true
  | _ => false
  end.

(** The briefing is saved, its changes are implemented or its completion
    is logged. *)
Definition is_briefing_delivery (n : Note) : bool :=
  match n with
  | Served (Call_save_weekly_briefing _)
  | Served (Call_auto_implement_strategy_changes _)
  | Noted Info_weekly_briefing_generated => true
  | _ => false
  end.

Definition finds (leads : list Lead) (target : pyval) (w : unit)
  : result (list Lead) * unit := (Ok leads, w).
Definition researches (lead : Lead) (w : unit) : result Lead * unit := (Ok lead, w).
Definition plans (lead : Lead) (w : unit) : result pyval * unit :=
  (Ok (PyDict (<["timing" := PyStr "tomorrow"]> ∅)), w).
Definition writes (lead : Lead) (contact_strategy : pyval) (w : unit)
  : result pyval * unit := (Ok (PyList []), w).
Definition schedules (lead : Lead) (messages timing : pyval) (w : unit)
  : result unit * unit := (Ok tt, w).


End CycleFacts.


(** ** Proposals and emails *)

Module OutreachFacts.
Import OptimizerFacts CycleFacts.
















End OutreachFacts.


(** * Properties *)

(** ** The lead scorer *)

Module LeadScorer.
Import AutonomousDecisionEngine LeadScorerFacts.

Lemma company_size_points_value (v : pyval) (p : option float) :
  company_size_points v = Ok p -> size_points_value p.
Proof.
  unfold company_size_points, size_points_value.
  destruct v as [| | | |s| |]; try (intros [= <-]; auto).
  destruct (PyStr.contains "-" s); [|intros [= <-]; auto].
  destruct (PyStr.split "-" s !! 1%nat) as [field|]; [|discriminate].
  unfold py_int. destruct (PyStr.int field) as [n|]; cbn; [|discriminate].
  destruct (200 <=? n)%Z; [intros [= <-]; auto|].
  destruct (50 <=? n)%Z; intros [= <-]; auto.
Qed.

Lemma score_shape (lead : Lead) (s : float) :
  calculate_lead_score lead = Ok s ->
  exists t p i a, size_points_value p /\ s = score_of t p i a.
Proof.
  unfold calculate_lead_score.
  destruct (py_lower (dict_get lead "title" (PyStr ""))) as [title|e]; cbn; [|discriminate].
  destruct (company_size_points (dict_get lead "company_size" (PyStr "0")))
    as [p|e] eqn:Hp; cbn; [|discriminate].
  destruct (py_lower (dict_get lead "industry" (PyStr ""))) as [industry|e]; cbn; [|discriminate].
  intros [= <-].
  eexists _, p, _, _. split; [eapply company_size_points_value, Hp|reflexivity].
Qed.

Lemma score_of_in_unit_interval (t i a : bool) (p : option float) :
  size_points_value p -> in_unit_interval (score_of t p i a).
Proof.
  intros [->|[->| ->]]; destruct t, i, a; split; vm_compute; reflexivity.
Qed.

(** Whenever the scorer returns, the score is between 0.0 and 1.0. *)
Lemma returned_score_in_unit_interval (lead : Lead) (s : float) :
  calculate_lead_score lead = Ok s -> in_unit_interval s.
Proof.
  intros H. apply score_shape in H as (t & p & i & a & Hp & ->).
  by apply score_of_in_unit_interval.
Qed.

Lemma py_lower_returns (lead : Lead) (key : string) :
  str_or_absent (lead !! key) = true ->
  exists s, py_lower (dict_get lead key (PyStr "")) = Ok s.
Proof.
  unfold dict_get, str_or_absent.
  destruct (lead !! key) as [[| | | |s| |]|]; try discriminate; intros _; cbn; eauto.
Qed.

Lemma py_lower_raises (lead : Lead) (key : string) :
  str_or_absent (lead !! key) = false ->
  exists e, py_lower (dict_get lead key (PyStr "")) = Raise e.
Proof.
  unfold dict_get, str_or_absent.
  destruct (lead !! key) as [[| | | |s| |]|]; try discriminate; intros _; cbn; eauto.
Qed.

Lemma company_size_points_returns (lead : Lead) :
  size_field_parses (lead !! "company_size") = true ->
  exists p, company_size_points (dict_get lead "company_size" (PyStr "0")) = Ok p.
Proof.
  unfold dict_get, size_field_parses, company_size_points.
  destruct (lead !! "company_size") as [[| | | |s| |]|]; eauto.
  destruct (PyStr.contains "-" s); eauto.
  destruct (PyStr.split "-" s !! 1%nat) as [field|]; [|discriminate].
  unfold py_int. destruct (PyStr.int field); [|discriminate]. cbn. eauto.
Qed.

Lemma company_size_points_raises (lead : Lead) :
  size_field_parses (lead !! "company_size") = false ->
  exists e, company_size_points (dict_get lead "company_size" (PyStr "0")) = Raise e.
Proof.
  unfold dict_get, size_field_parses, company_size_points.
  destruct (lead !! "company_size") as [[| | | |s| |]|]; try discriminate.
  destruct (PyStr.contains "-" s); [|discriminate].
  destruct (PyStr.split "-" s !! 1%nat) as [field|]; [|eauto].
  unfold py_int. destruct (PyStr.int field); [discriminate|]. cbn. eauto.
Qed.

(** The scorer returns a score exactly on the leads that are [scorable]. *)
Lemma calculate_lead_score_returns_iff (lead : Lead) :
  (exists s, calculate_lead_score lead = Ok s) <-> scorable lead = true.
Proof.
  unfold scorable, calculate_lead_score. split.
  - intros [s H].
    destruct (str_or_absent (lead !! "title")) eqn:Ht.
    2:{ apply py_lower_raises in Ht as [e He]. rewrite He in H. discriminate. }
    apply py_lower_returns in Ht as [t Ht]. rewrite Ht in H. cbn in H.
    destruct (size_field_parses (lead !! "company_size")) eqn:Hs.
    2:{ apply company_size_points_raises in Hs as [e He]. rewrite He in H. discriminate. }
    apply company_size_points_returns in Hs as [p Hp]. rewrite Hp in H. cbn in H.
    destruct (str_or_absent (lead !! "industry")) eqn:Hi; [done|].
    apply py_lower_raises in Hi as [e He]. rewrite He in H. discriminate.
  - intros H. apply andb_prop in H as [H Hi]. apply andb_prop in H as [Ht Hs].
    apply py_lower_returns in Ht as [t ->].
    apply company_size_points_returns in Hs as [p ->].
    apply py_lower_returns in Hi as [i ->]. cbn. eauto.
Qed.

(** Where the scorer returns, the bounds hold: on every lead whose title
    and industry are strings or absent, and whose company size is not a
    string with a ['-'] or has a literal [int] accepts after its first
    ['-'], [calculate_lead_score] returns a score [s] with
    [0.0 <= s <= 1.0]. *)
Theorem score_in_unit_interval (lead : Lead) :
  scorable lead = true ->
  exists s, calculate_lead_score lead = Ok s /\ in_unit_interval s.
Proof.
  intros H. apply calculate_lead_score_returns_iff in H as [s Hs].
  exists s. split; [exact Hs|]. by eapply returned_score_in_unit_interval.
Qed.

Lemma score_in_unit_interval_witness :
  scorable analyst_lead = true /\
  exists s, calculate_lead_score analyst_lead = Ok s /\ in_unit_interval s.
Proof.
  split; [reflexivity|]. apply (score_in_unit_interval analyst_lead). reflexivity.
Defined.

(** C1 fails on the code.  The lead with title CEO and company size
    "small-medium" passes the guard of the size rule (a string with a
    ['-']) and reaches [int("medium")], which nothing guards: the scorer
    raises [ValueError] and returns no score, where a malformed size is to
    add nothing to a score between 0.0 and 1.0. *)
Lemma score_missing_for_small_to_medium :
  calculate_lead_score small_to_medium_lead
  = Raise (mkException "ValueError" "invalid literal for int() with base 10: 'medium'")
  /\ ~ (exists s, calculate_lead_score small_to_medium_lead = Ok s /\ in_unit_interval s).
Proof.
  assert (H : calculate_lead_score small_to_medium_lead
              = Raise (mkException "ValueError"
                         "invalid literal for int() with base 10: 'medium'"))
    by (vm_compute; reflexivity).
  split; [exact H|]. intros (s & Hs & _). rewrite H in Hs. discriminate.
Qed.

(** C8. The lead with title "VP of Engineering", company size "50-500",
    industry "SaaS" and recent activity scores exactly 1.0. *)
Theorem vp_of_engineering_scores_one :
  calculate_lead_score vp_of_engineering = Ok 1.0%float
  /\ (0.35 + 0.25 + 0.20 + 0.20)%float = 1.0%float.
Proof. split; vm_compute; reflexivity. Qed.

Lemma dict_get_delete_ne (lead : Lead) (gone key : string) (default : pyval) :
  gone <> key -> dict_get (delete gone lead) key default = dict_get lead key default.
Proof. intros H. unfold dict_get. by rewrite lookup_delete_ne. Qed.

Lemma company_size_points_no_separator (size : string) :
  PyStr.contains "-" size = false -> company_size_points (PyStr size) = Ok None.
Proof. intros H. unfold company_size_points. by rewrite H. Qed.

(** What the guard of the size rule does cover: for every lead whose
    company size is a string without a ['-'], the rule adds nothing and
    does not raise; the lead scores what it scores without the field, and
    exactly 0.0 when no other rule matches. *)
Theorem size_without_separator_adds_nothing (lead : Lead) (size : string) :
  lead !! "company_size" = Some (PyStr size) ->
  PyStr.contains "-" size = false ->
  company_size_points (PyStr size) = Ok None
  /\ calculate_lead_score lead = calculate_lead_score (delete "company_size" lead)
  /\ (unmatched lead = true -> calculate_lead_score lead = Ok 0.0%float).
Proof.
  intros Hsize Hsep.
  pose proof (company_size_points_no_separator size Hsep) as Hpoints.
  assert (Hget : dict_get lead "company_size" (PyStr "0") = PyStr size)
    by (unfold dict_get; by rewrite Hsize).
  split; [exact Hpoints|]. split.
  - unfold calculate_lead_score.
    rewrite (dict_get_delete_ne lead "company_size" "title") by done.
    rewrite (dict_get_delete_ne lead "company_size" "industry") by done.
    rewrite (dict_get_delete_ne lead "company_size" "recent_activity") by done.
    rewrite Hget, Hpoints.
    assert (dict_get (delete "company_size" lead) "company_size" (PyStr "0") = PyStr "0")
      as -> by (unfold dict_get; by rewrite lookup_delete_eq).
    reflexivity.
  - unfold unmatched, calculate_lead_score. rewrite Hget, Hpoints.
    intros H. apply andb_prop in H as [H Ha]. apply andb_prop in H as [Ht Hi].
    apply negb_true_iff in Ha. rewrite Ha.
    unfold dict_get, py_lower, mbind, result_bind.
    destruct (lead !! "title") as [[| | | |t| |]|]; try discriminate;
      destruct (lead !! "industry") as [[| | | |i| |]|]; try discriminate;
      try (apply negb_true_iff in Ht; rewrite Ht);
      try (apply negb_true_iff in Hi; rewrite Hi);
      vm_compute; reflexivity.
Qed.

Lemma size_without_separator_adds_nothing_witness :
  calculate_lead_score unknown_size_lead = Ok 0.0%float.
Proof.
  apply (size_without_separator_adds_nothing unknown_size_lead "unknown");
    reflexivity.
Defined.

(** C3 fails on the code.  The malformed company size "500-" passes the
    guard of the size rule; the text after its ['-'] is empty and the
    scorer raises the [ValueError] of [int("")], where the rule is to add
    nothing and never to raise. *)
Lemma open_ended_size_raises :
  PyStr.int "" = None
  /\ calculate_lead_score open_ended_size_lead
     = Raise (mkException "ValueError" "invalid literal for int() with base 10: ''").
Proof. split; vm_compute; reflexivity. Qed.

End LeadScorer.

(** ** Recovery *)

Module Recovery.
Import RecoveryFacts.
Section Proofs.

Context {W : Type}.
Variable alt : W -> result unit * W.
Variable alert : string -> W -> result unit * W.
Variable now : W -> string.

(** The handler either recovers or escalates, by the count of the failures
    under the key of the error. *)
Lemma handle_revenue_error_spec (error : Exception) (st : State W) :
  handle_revenue_error alt alert now error st =
  if (attempts_of st (error_key error) + 1 <=? max_recovery_attempts)%Z
  then recover alt error st else escalate alert now error st.
Proof.
  unfold handle_revenue_error, attempts_of, recover, escalate, attempts_of.
  generalize (error_key error) as key. intros key.
  unfold get_attempts, set_attempts, _alert_for_manual_intervention, try_except,
    call, log, emit, on_world.
  unfold mbind, SE_bind, gets, modify, mret, SE_ret, raise.
  destruct st as [attempts js w tr]. cbn.
  destruct (attempts !! key) as [n|] eqn:Hn; cbn.
  - rewrite Hn, lookup_insert_eq.
    destruct (n + 1 <=? max_recovery_attempts)%Z; cbn.
    + destruct (alt w) as [[[]|e] w']; cbn; rewrite <- ?app_assoc; reflexivity.
    + destruct (alert _ w) as [r w']; cbn; rewrite <- ?app_assoc; reflexivity.
  - rewrite lookup_insert_eq. cbn. rewrite lookup_insert_eq, insert_insert_eq.
    change (0 + 1 <=? max_recovery_attempts)%Z with true. cbn.
    destruct (alt w) as [[[]|e] w']; cbn; rewrite <- ?app_assoc; reflexivity.
Qed.

Lemma attempts_after_handle (error : Exception) (st : State W) :
  recovery_attempts (handle_revenue_error alt alert now error st).2
  = <[error_key error := attempts_of st (error_key error) + 1]> (recovery_attempts st).
Proof.
  rewrite handle_revenue_error_spec. unfold recover, escalate.
  destruct (_ <=? _)%Z.
  - by destruct (alt (world st)).
  - by destruct (alert _ (world st)).
Qed.

Lemma attempts_of_after_handle_same (error : Exception) (st : State W) :
  attempts_of (handle_revenue_error alt alert now error st).2 (error_key error)
  = attempts_of st (error_key error) + 1.
Proof. unfold attempts_of at 1. by rewrite attempts_after_handle, lookup_insert_eq. Qed.

Lemma attempts_after_handle_other (error : Exception) (other : string) (st : State W) :
  error_key error <> other ->
  recovery_attempts (handle_revenue_error alt alert now error st).2 !! other
  = recovery_attempts st !! other.
Proof. intros H. by rewrite attempts_after_handle, lookup_insert_ne. Qed.

Lemma attempts_of_after_failures (key : string) (errors : list Exception) (st : State W) :
  Forall (fun e => error_key e = key) errors ->
  attempts_of (after_failures alt alert now errors st) key = attempts_of st key + Z.of_nat (length errors).
Proof.
  intros H. revert st. induction H as [|e rest He _ IH]; intros st; cbn [after_failures length].
  - lia.
  - rewrite IH. subst key. rewrite attempts_of_after_handle_same. lia.
Qed.

Lemma events_since_recover (error : Exception) (st : State W) :
  exists outcome,
    events_since st (recover alt error st).2
    = [Logged (Warning_auto_recovering (attempts_of st (error_key error) + 1) (exc_str error));
       Called Call_alternative_revenue_methods;
       Logged (recovery_outcome outcome)]
    /\ (recover alt error st).1 = Ok tt.
Proof.
  unfold recover, events_since. destruct (alt (world st)) as [outcome w'].
  exists outcome. cbn. by rewrite drop_app_length.
Qed.

Lemma events_since_escalate (error : Exception) (st : State W) :
  let message := alert_message "revenue" (exc_str error) (now (world st)) in
  events_since st (escalate alert now error st).2
  = [Logged (Error_recovery_exhausted max_recovery_attempts (exc_str error));
     Called (Call_send_manual_intervention_alert message)]
  /\ (escalate alert now error st).1 = (alert message (world st)).1
  /\ world (escalate alert now error st).2 = (alert message (world st)).2.
Proof.
  unfold escalate, events_since. cbv zeta. destruct (alert _ (world st)) as [outcome w'].
  cbn. by rewrite drop_app_length.
Qed.

Lemma startswith_app (p s : string) : PyStr.startswith p (p ++ s) = true.
Proof.
  induction p as [|c p IH]; [done|].
  change (String c p ++ s) with (String c (p ++ s)).
  cbn [PyStr.startswith]. by rewrite Ascii.eqb_refl.
Qed.

Lemma contains_startswith (p s : string) :
  PyStr.startswith p s = true -> PyStr.contains p s = true.
Proof. intros H. destruct s; cbn [PyStr.contains]; by rewrite H. Qed.

Lemma contains_app_r (a p s : string) :
  PyStr.contains p s = true -> PyStr.contains p (a ++ s) = true.
Proof.
  intros H. induction a as [|c a IH]; [done|].
  change (String c a ++ s) with (String c (a ++ s)).
  cbn [PyStr.contains]. rewrite IH. apply orb_true_r.
Qed.

Lemma alert_message_contains_error (system error_str time : string) :
  PyStr.contains error_str (alert_message system error_str time) = true.
Proof.
  unfold alert_message. do 9 apply contains_app_r.
  apply contains_startswith, startswith_app.
Qed.

Lemma alert_message_contains_time (system error_str time : string) :
  PyStr.contains time (alert_message system error_str time) = true.
Proof.
  unfold alert_message. do 12 apply contains_app_r.
  apply contains_startswith, startswith_app.
Qed.

(** What a recovery does: the warning, the call of the fallback and the
    record of its outcome; the fallback has acted on the collaborators. *)
Lemma recover_effect (error : Exception) (st : State W) :
  events_since st (recover alt error st).2
  = [Logged (Warning_auto_recovering (attempts_of st (error_key error) + 1) (exc_str error));
     Called Call_alternative_revenue_methods;
     Logged (recovery_outcome (alt (world st)).1)]
  /\ (recover alt error st).1 = Ok tt
  /\ world (recover alt error st).2 = (alt (world st)).2.
Proof.
  unfold recover, events_since. destruct (alt (world st)) as [outcome w'].
  cbn. by rewrite drop_app_length.
Qed.

(** C2. Under one error-class key with no failure counted yet, each of the
    first three failures is recovered: the warning is logged with the
    number of the attempt, the fallback [_alternative_revenue_methods] is
    called and acts on the collaborators, its outcome is logged, no alert is
    sent and the handler returns; so after two failures the next one does
    not escalate.  The failure that comes after exactly three is escalated:
    no fallback is tried, the alert for manual intervention is sent with the
    message of the error, and the outcome of the handler and the state of
    the collaborators are those the alert leaves.  Either way the failure
    is counted. *)
Theorem recovery_escalates_after_ceiling
  (key : string) (errors : list Exception) (error : Exception) (st : State W) :
  recovery_attempts st !! key = None ->
  Forall (fun e => error_key e = key) errors ->
  error_key error = key ->
  let prior := after_failures alt alert now errors st in
  let outcome := handle_revenue_error alt alert now error prior in
  let events := events_since prior outcome.2 in
  let message := alert_message "revenue" (exc_str error) (now (world prior)) in
  recovery_attempts outcome.2 !! key = Some (Z.of_nat (length errors) + 1)
  /\ ((length errors < 3)%nat ->
       outcome.1 = Ok tt
       /\ events
          = [Logged (Warning_auto_recovering (Z.of_nat (length errors) + 1)
                       (exc_str error));
             Called Call_alternative_revenue_methods;
             Logged (recovery_outcome (alt (world prior)).1)]
       /\ world outcome.2 = (alt (world prior)).2
       /\ existsb is_fallback events = true /\ existsb is_alert events = false)
  /\ (length errors = 3%nat ->
       outcome.1 = (alert message (world prior)).1
       /\ events
          = [Logged (Error_recovery_exhausted max_recovery_attempts (exc_str error));
             Called (Call_send_manual_intervention_alert message)]
       /\ world outcome.2 = (alert message (world prior)).2
       /\ existsb is_fallback events = false /\ existsb is_alert events = true).
Proof.
  intros Hfresh Herrors Hkey. cbv zeta.
  assert (Hn : attempts_of (after_failures alt alert now errors st) (error_key error)
               = Z.of_nat (length errors)).
  { rewrite Hkey, (attempts_of_after_failures key errors st Herrors).
    unfold attempts_of. rewrite Hfresh. cbn. lia. }
  split; [|split].
  - rewrite attempts_after_handle, Hn, Hkey. by rewrite lookup_insert_eq.
  - intros Hlen. rewrite handle_revenue_error_spec, Hn. unfold max_recovery_attempts.
    rewrite (proj2 (Z.leb_le _ _)) by lia.
    destruct (recover_effect error (after_failures alt alert now errors st))
      as (Hevents & Hresult & Hworld).
    rewrite Hn in Hevents. rewrite Hevents.
    split; [exact Hresult|]. split; [reflexivity|]. split; [exact Hworld|].
    split; reflexivity.
  - intros Hlen. rewrite handle_revenue_error_spec, Hn. unfold max_recovery_attempts.
    rewrite (proj2 (Z.leb_gt _ _)) by lia.
    destruct (events_since_escalate error (after_failures alt alert now errors st))
      as (Hevents & Hresult & Hworld).
    rewrite Hevents.
    split; [exact Hresult|]. split; [reflexivity|]. split; [exact Hworld|].
    split; reflexivity.
Qed.

(** C9. The counters are independent: failures recorded under keys other
    than [other], however many, leave the counter of [other] as it was. *)
Theorem other_keys_untouched (errors : list Exception) (other : string) (st : State W) :
  Forall (fun e => error_key e <> other) errors ->
  recovery_attempts (after_failures alt alert now errors st) !! other = recovery_attempts st !! other.
Proof.
  intros H. revert st. induction H as [|e rest He _ IH]; intros st; cbn [after_failures].
  - reflexivity.
  - rewrite IH. by apply attempts_after_handle_other.
Qed.

(** C7. Whenever the ceiling is exceeded, the handler calls the alert
    operation, once, with a message that holds the system, the text of the
    error and the time; what the alert returns or raises is what the handler
    returns or raises, so the signal is not swallowed. *)
Theorem escalation_reaches_alerting (error : Exception) (st : State W) :
  max_recovery_attempts < attempts_of st (error_key error) + 1 ->
  let message := alert_message "revenue" (exc_str error) (now (world st)) in
  let outcome := handle_revenue_error alt alert now error st in
  events_since st outcome.2
  = [Logged (Error_recovery_exhausted max_recovery_attempts (exc_str error));
     Called (Call_send_manual_intervention_alert message)]
  /\ outcome.1 = (alert message (world st)).1
  /\ world outcome.2 = (alert message (world st)).2
  /\ PyStr.contains (exc_str error) message = true
  /\ PyStr.contains "System: revenue" message = true
  /\ PyStr.contains (now (world st)) message = true.
Proof.
  intros H. cbv zeta. rewrite handle_revenue_error_spec.
  destruct (_ <=? _)%Z eqn:E; [lia|].
  destruct (events_since_escalate error st) as (Hevents & Hresult & Hworld).
  split; [exact Hevents|]. split; [exact Hresult|]. split; [exact Hworld|].
  split; [apply alert_message_contains_error|].
  split; [vm_compute; reflexivity|apply alert_message_contains_time].
Qed.
End Proofs.

Lemma recovery_escalates_after_ceiling_witness :
  world
    (handle_revenue_error fallback_offer send_alert fixed_clock timeout_error
       (after_failures fallback_offer send_alert fixed_clock
          [timeout_error; timeout_error] initial_state)).2
  = ["offer to the warm leads"; "offer to the warm leads"; "offer to the warm leads"]
  /\ world
    (handle_revenue_error fallback_offer send_alert fixed_clock timeout_error
       (after_failures fallback_offer send_alert fixed_clock
          [timeout_error; timeout_error; timeout_error] initial_state)).2
  = ["offer to the warm leads"; "offer to the warm leads"; "offer to the warm leads";
     alert_message "revenue" "database timed out" "2024-01-15 08:00:00"].
Proof.
  split.
  - destruct (recovery_escalates_after_ceiling fallback_offer send_alert fixed_clock
                (error_key timeout_error) [timeout_error; timeout_error]
                timeout_error initial_state)
      as (_ & Hrecovered & _); [reflexivity|repeat constructor|reflexivity|].
    destruct Hrecovered as (_ & _ & Hworld & _); [cbn; lia|].
    rewrite Hworld. reflexivity.
  - destruct (recovery_escalates_after_ceiling fallback_offer send_alert fixed_clock
                (error_key timeout_error) [timeout_error; timeout_error; timeout_error]
                timeout_error initial_state)
      as (_ & _ & Hescalated); [reflexivity|repeat constructor|reflexivity|].
    destruct Hescalated as (_ & _ & Hworld & _); [reflexivity|].
    rewrite Hworld. reflexivity.
Defined.

Lemma other_keys_untouched_witness :
  recovery_attempts
    (after_failures fallback_ok send_alert fixed_clock
       [timeout_error; timeout_error; timeout_error; timeout_error]
       (after_failures fallback_ok send_alert fixed_clock [quota_error] initial_state))
    !! error_key quota_error = Some 1.
Proof.
  rewrite (other_keys_untouched fallback_ok send_alert fixed_clock
             [timeout_error; timeout_error; timeout_error; timeout_error]
             (error_key quota_error)).
  - reflexivity.
  - repeat constructor; discriminate.
Defined.

Lemma escalation_reaches_alerting_witness :
  world
    (handle_revenue_error fallback_ok send_alert fixed_clock timeout_error
       (after_failures fallback_ok send_alert fixed_clock
          [timeout_error; timeout_error; timeout_error] initial_state)).2
  = [alert_message "revenue" "database timed out" "2024-01-15 08:00:00"].
Proof.
  apply (escalation_reaches_alerting fallback_ok send_alert fixed_clock timeout_error
           (after_failures fallback_ok send_alert fixed_clock
              [timeout_error; timeout_error; timeout_error] initial_state)).
  reflexivity.
Defined.

End Recovery.

(** ** Qualification *)

Module Qualification.
Import AutonomousDecisionEngine LeadScorerFacts QualificationFacts.

(** C10 fails on the code.  On a list that holds a lead with the company
    size "small-medium" after a lead that qualifies, nothing is returned,
    not even the lead that qualifies: the scorer raises the [ValueError] of
    [int("medium")], the loop has no handler and the error leaves
    [_auto_qualify_leads], where a malformed size is to add nothing and the
    list of the leads that score at least 0.7 is to be returned. *)
Lemma auto_qualify_leads_raises :
  qualifies vp_of_engineering = true
  /\ (_auto_qualify_leads no_research [vp_of_engineering; small_to_medium_lead] idle).1
     = Raise (mkException "ValueError" "invalid literal for int() with base 10: 'medium'").
Proof. split; vm_compute; reflexivity. Qed.

End Qualification.


(** ** The entry point and the cycles *)

Module Operation.
Import OperationFacts RecoveryFacts.
Section Proofs.
Context {W : Type}.
Variable get_daily_revenue : W -> result Z * W.
Variable exec : Z -> W -> result unit * W.
Variable follow nurture prioritize alt : W -> result unit * W.
Variable alert : string -> W -> result unit * W.
Variable now : W -> string.

(** The cycle is its [try] with the handler in the [except] branch. *)
Lemma revenue_cycle_unfold (st : State W) :
  _autonomous_revenue_cycle get_daily_revenue exec follow nurture prioritize
    alt alert now st
  = match revenue_steps get_daily_revenue exec follow nurture prioritize
            (log Info_starting_revenue_cycle st).2 with
    | (Ok a, st') => (Ok a, st')
    | (Raise e, st') => handle_revenue_error alt alert now e st'
    end.
Proof. reflexivity. Qed.

End Proofs.

(** C6 fails on the code.  With seven cycles that succeed and one that
    raises, the exception of the failing cycle is raised to the caller of
    [start_autonomous_operation] and no summary is returned: the top-level
    [gather] is called without the [return_exceptions=True] that the other
    gathers of the file pass, and its result is not bound.  Even when all
    eight cycles succeed the entry point returns [None], not their
    summaries. *)
Theorem failing_cycle_stops_operation :
  (start_autonomous_operation
     (cycle_done "revenue") (cycle_done "leads") (cycle_failing "content" feed_error)
     (cycle_done "opportunities") (cycle_done "clients") (cycle_done "recovery")
     (cycle_done "optimization") (cycle_done "strategy") at_rest).1
  = Raise feed_error
  /\ (start_autonomous_operation
        (cycle_done "revenue") (cycle_done "leads") (cycle_done "content")
        (cycle_done "opportunities") (cycle_done "clients") (cycle_done "recovery")
        (cycle_done "optimization") (cycle_done "strategy") at_rest).1
     = Ok PyNone.
Proof. split; vm_compute; reflexivity. Qed.

End Operation.


(** ** The agents *)

Module Agents.
Import AgentFacts.
Section Proofs.
Context {W : Type}.
Variable _personalize_pitch : pyval -> pyval -> W -> result pyval * W.
Variable isoformat_now : W -> string.

(** Whatever the task, the last assignment of [execute_task] is the one of
    its [finally]: the agent ends [COMPLETED]. *)
Lemma podcast_execute_task_ends_completed (task : Task) (agent : Agent W) :
  let out := PodcastBookingAgent.execute_task _personalize_pitch isoformat_now task agent in
  status out.2 = COMPLETED
  /\ exists earlier, status_history out.2 = (earlier ++ [COMPLETED])%list.
Proof.
  unfold PodcastBookingAgent.execute_task, try_finally.
  cbv zeta. unfold mbind, SE_bind, set_status, modify.
  match goal with |- context [try_except ?b ?h ?s] =>
    destruct (try_except b h s) as [r a] end.
  cbn. split; [reflexivity|]. by eexists.
Qed.

(** C4 (as amended). A task whose kind is neither "find_podcasts" nor
    "pitch_podcast" is not refused: [PodcastBookingAgent.execute_task] runs
    no handler, raises nothing and returns [None], and the agent goes
    through [WORKING] to [COMPLETED]. *)
Theorem unregistered_kind_returns_none (task : Task) (agent : Agent W) :
  task_type task <> "find_podcasts" ->
  task_type task <> "pitch_podcast" ->
  PodcastBookingAgent.execute_task _personalize_pitch isoformat_now task agent
  = (Ok PyNone,
     mkAgent COMPLETED (status_history agent ++ [WORKING; COMPLETED]) (services agent)).
Proof.
  intros H1 H2.
  apply String.eqb_neq in H1, H2.
  unfold PodcastBookingAgent.execute_task. rewrite H1, H2.
  unfold try_finally, try_except, set_status, modify, mbind, SE_bind, mret, SE_ret.
  cbn. by rewrite <- app_assoc.
Qed.

End Proofs.

Lemma unregistered_kind_returns_none_witness :
  PodcastBookingAgent.execute_task pitch_as_is morning book_guest_task new_agent
  = (Ok PyNone, mkAgent COMPLETED [WORKING; COMPLETED] tt).
Proof.
  apply (unregistered_kind_returns_none pitch_as_is morning book_guest_task new_agent).
  - discriminate.
  - discriminate.
Defined.

(** C4, as stated, fails: the kind "transcribe_episode" has no handler,
    and dispatching it returns [None] as a success; no error is signalled. *)
Lemma unregistered_kind_is_not_signalled :
  (PodcastBookingAgent.execute_task pitch_as_is morning transcribe_task new_agent).1
  = Ok PyNone.
Proof. vm_compute. reflexivity. Qed.

(** C5 fails on the code.  A pitch task without its "podcasts" key fails
    with a [KeyError]; the [except] branch sets [ERROR] and returns the
    error, then the [finally] branch sets [COMPLETED]: the status goes from
    error to completed, which is no move of the life cycle. *)
Theorem failed_task_ends_completed :
  failed_pitch_run.1 = Ok (PyDict (<["error" := PyStr "'podcasts'"]> ∅))
  /\ status_history failed_pitch_run.2 = [WORKING; ERROR; COMPLETED]
  /\ status failed_pitch_run.2 = COMPLETED
  /\ forward ERROR COMPLETED = false
  /\ only_forward (status new_agent) (status_history failed_pitch_run.2) = false.
Proof. vm_compute. repeat split; reflexivity. Qed.

End Agents.


(** ** More on the lead scorer *)

Module Scoring.
Import AutonomousDecisionEngine LeadScorerFacts QualificationFacts ScoringFacts.

(** The score, by the rules that fire. *)
Lemma score_by_rules (lead : Lead) :
  scorable lead = true ->
  exists p,
    company_size_points (dict_get lead "company_size" (PyStr "0")) = Ok p
    /\ size_points_value p
    /\ calculate_lead_score lead
       = Ok (score_of (title_fires lead) p (industry_fires lead) (activity_fires lead)).
Proof.
  intros H. apply andb_prop in H as [H Hi]. apply andb_prop in H as [Ht Hs].
  apply LeadScorer.company_size_points_returns in Hs as [p Hp].
  exists p. split; [exact Hp|]. split; [by eapply LeadScorer.company_size_points_value|].
  unfold calculate_lead_score. rewrite Hp.
  unfold title_fires, industry_fires, activity_fires, dict_get, str_or_absent in *.
  destruct (lead !! "title") as [[| | | |t| |]|]; try discriminate;
  destruct (lead !! "industry") as [[| | | |i| |]|]; try discriminate;
  reflexivity.
Qed.

(** X1. A lead the scorer returns a score for reaches the qualification
    threshold of 0.7 exactly when its title holds a seniority keyword and
    at least two of the three other rules (company size, industry, recent
    activity) fire: without the title rule no lead qualifies. *)
Theorem qualifies_iff_title_and_two_rules (lead : Lead) :
  scorable lead = true ->
  qualifies lead = title_fires lead && (2 <=? other_rules_fired lead)%nat.
Proof.
  intros H. destruct (score_by_rules lead H) as (p & Hp & Hv & Hscore).
  unfold qualifies, other_rules_fired, size_fires. rewrite Hscore, Hp.
  destruct Hv as [->|[->| ->]];
    destruct (title_fires lead), (industry_fires lead), (activity_fires lead);
    vm_compute; reflexivity.
Qed.

Lemma qualifies_iff_title_and_two_rules_witness :
  qualifies director_lead
  = title_fires director_lead && (2 <=? other_rules_fired director_lead)%nat.
Proof. apply (qualifies_iff_title_and_two_rules director_lead). vm_compute. reflexivity. Defined.

(** X2. A lead whose title is present but is not a string (a [None] of
    the data source, a number) has no score: the scorer raises the
    [AttributeError] of the missing [lower] method. *)
Theorem title_without_lower_raises (lead : Lead) (v : pyval) :
  lead !! "title" = Some v ->
  (forall s, v <> PyStr s) ->
  calculate_lead_score lead
  = Raise (mkException "AttributeError"
             ("'" ++ type_name v ++ "' object has no attribute 'lower'")).
Proof.
  intros Hv Hns. unfold calculate_lead_score, dict_get. rewrite Hv.
  destruct v as [| | | |s| |]; try reflexivity. by destruct (Hns s).
Qed.

Lemma title_without_lower_raises_witness :
  calculate_lead_score untitled_lead
  = Raise (mkException "AttributeError" "'NoneType' object has no attribute 'lower'").
Proof.
  apply (title_without_lower_raises untitled_lead PyNone).
  - vm_compute. reflexivity.
  - intros s. discriminate.
Defined.

Lemma contains_hyphen_cons (c : ascii) (s : string) :
  PyStr.contains "-" (String c s) = Ascii.eqb "-" c || PyStr.contains "-" s.
Proof. cbn [PyStr.contains PyStr.startswith]. by rewrite andb_true_r. Qed.

Lemma split_nonempty (sep : ascii) (s : string) : PyStr.split sep s <> [].
Proof.
  induction s as [|c s IH]; cbn; [done|].
  destruct (Ascii.eqb c sep); [done|]. by destruct (PyStr.split sep s).
Qed.

Lemma split_hyphen_app (a rest : string) :
  hyphen_free a ->
  PyStr.split "-" (a ++ String "-" rest) = a :: PyStr.split "-" rest.
Proof.
  unfold hyphen_free. induction a as [|c a IH]; intros Ha.
  - reflexivity.
  - rewrite contains_hyphen_cons in Ha. apply orb_false_elim in Ha as [Hc Ha].
    change (String c a ++ String "-" rest) with (String c (a ++ String "-" rest)).
    cbn [PyStr.split]. rewrite Ascii.eqb_sym, Hc, (IH Ha). reflexivity.
Qed.

Lemma split_hyphen_free (b : string) : hyphen_free b -> PyStr.split "-" b = [b].
Proof.
  unfold hyphen_free. induction b as [|c b IH]; intros Hb; [reflexivity|].
  rewrite contains_hyphen_cons in Hb. apply orb_false_elim in Hb as [Hc Hb].
  cbn [PyStr.split]. rewrite Ascii.eqb_sym, Hc, (IH Hb). reflexivity.
Qed.

Lemma contains_hyphen_app (a rest : string) :
  PyStr.contains "-" (a ++ String "-" rest) = true.
Proof.
  induction a as [|c a IH].
  - reflexivity.
  - change (String c a ++ String "-" rest) with (String c (a ++ String "-" rest)).
    rewrite contains_hyphen_cons, IH. apply orb_true_r.
Qed.

(** The points of a size with a hyphen are the points of its second
    field. *)
Lemma company_size_points_second_field (a rest field : string) (others : list string) :
  hyphen_free a ->
  PyStr.split "-" rest = field :: others ->
  company_size_points (PyStr (a ++ String "-" rest))
  = (max_size ← py_int field;
     Ok (if (200 <=? max_size)%Z then Some 0.25%float
         else if (50 <=? max_size)%Z then Some 0.15%float
         else None)).
Proof.
  intros Ha Hrest. unfold company_size_points.
  rewrite contains_hyphen_app, (split_hyphen_app _ _ Ha), Hrest. reflexivity.
Qed.

(** The scorer reads the company size through the size rule only. *)
Lemma score_by_size_points (v1 v2 : pyval) (lead : Lead) :
  company_size_points v1 = company_size_points v2 ->
  calculate_lead_score (<["company_size" := v1]> lead)
  = calculate_lead_score (<["company_size" := v2]> lead).
Proof.
  intros H. unfold calculate_lead_score, dict_get.
  rewrite !lookup_insert_eq, H.
  rewrite !(lookup_insert_ne _ "company_size" "title") by done.
  rewrite !(lookup_insert_ne _ "company_size" "industry") by done.
  rewrite !(lookup_insert_ne _ "company_size" "recent_activity") by done.
  reflexivity.
Qed.

(** X3. The company-size rule reads only the text between the first and
    the second hyphen: the lower bound of the range and anything after a
    second hyphen change neither the score nor whether one is returned. *)
Theorem size_rule_reads_second_field_only (a a' b c : string) (lead : Lead) :
  hyphen_free a -> hyphen_free a' -> hyphen_free b ->
  calculate_lead_score (with_company_size (a ++ "-" ++ b) lead)
  = calculate_lead_score (with_company_size (a' ++ "-" ++ b ++ "-" ++ c) lead).
Proof.
  intros Ha Ha' Hb. apply score_by_size_points.
  change (a ++ "-" ++ b) with (a ++ String "-" b).
  change (a' ++ "-" ++ b ++ "-" ++ c) with (a' ++ String "-" (b ++ String "-" c)).
  rewrite (company_size_points_second_field a b b [] Ha (split_hyphen_free b Hb)).
  rewrite (company_size_points_second_field a' (b ++ String "-" c) b (PyStr.split "-" c) Ha').
  - reflexivity.
  - apply (split_hyphen_app b c Hb).
Qed.

Lemma size_rule_reads_second_field_only_witness :
  calculate_lead_score (with_company_size ("10" ++ "-" ++ "200") director_lead)
  = calculate_lead_score
      (with_company_size ("many" ++ "-" ++ "200" ++ "-" ++ "or more") director_lead).
Proof.
  apply (size_rule_reads_second_field_only "10" "many" "200" "or more" director_lead);
    reflexivity.
Defined.

End Scoring.


(** ** The ledger of the recovery handler *)

Module Ledger.
Import RecoveryFacts LedgerFacts.
Section Proofs.

Context {W : Type}.
Variable alt : W -> result unit * W.
Variable alert : string -> W -> result unit * W.
Variable now : W -> string.

Lemma attempts_of_after_handle_other (error : Exception) (other : string) (st : State W) :
  error_key error <> other ->
  attempts_of (handle_revenue_error alt alert now error st).2 other = attempts_of st other.
Proof.
  intros H. unfold attempts_of.
  by rewrite (Recovery.attempts_after_handle_other alt alert now error other st H).
Qed.

(** X4. The ledger of the handler counts: after any run of failures, of
    whatever keys and in whatever order, the counter of a key has grown by
    the number of the failures under that key; nothing resets it. *)
Theorem counter_counts_failures (key : string) (errors : list Exception) (st : State W) :
  attempts_of (after_failures alt alert now errors st) key
  = attempts_of st key + Z.of_nat (failures_under key errors).
Proof.
  revert st. induction errors as [|e rest IH]; intros st.
  - unfold failures_under. cbn. lia.
  - cbn [after_failures]. rewrite IH. unfold failures_under. cbn [List.filter].
    destruct (String.eqb (error_key e) key) eqn:E.
    + apply String.eqb_eq in E. subst key.
      rewrite Recovery.attempts_of_after_handle_same. cbn [length]. lia.
    + apply String.eqb_neq in E.
      rewrite (attempts_of_after_handle_other e key st E). lia.
Qed.


Lemma alerts_in_app (l1 l2 : list Event) :
  alerts_in (l1 ++ l2) = (alerts_in l1 + alerts_in l2)%nat.
Proof. unfold alerts_in. by rewrite List.filter_app, length_app. Qed.




(** X6. A fallback that fails is logged and swallowed: below the ceiling
    the handler returns normally although [_alternative_revenue_methods]
    raised, it sends no alert, and the failure is counted all the same. *)
Theorem failed_fallback_is_swallowed (error recovery_error : Exception) (st : State W) :
  attempts_of st (error_key error) + 1 <= max_recovery_attempts ->
  (alt (world st)).1 = Raise recovery_error ->
  let outcome := handle_revenue_error alt alert now error st in
  outcome.1 = Ok tt
  /\ events_since st outcome.2
     = [Logged (Warning_auto_recovering (attempts_of st (error_key error) + 1)
                  (exc_str error));
        Called Call_alternative_revenue_methods;
        Logged (Error_recovery_failed (exc_str recovery_error))]
  /\ attempts_of outcome.2 (error_key error) = attempts_of st (error_key error) + 1.
Proof.
  intros Hle Halt. cbv zeta.
  split; [|split]; [| |apply Recovery.attempts_of_after_handle_same].
  - rewrite Recovery.handle_revenue_error_spec, (proj2 (Z.leb_le _ _) Hle).
    unfold recover. by destruct (alt (world st)).
  - rewrite Recovery.handle_revenue_error_spec, (proj2 (Z.leb_le _ _) Hle).
    unfold recover, events_since. destruct (alt (world st)) as [r w']. cbn in Halt. subst r.
    cbn. by rewrite drop_app_length.
Qed.

Lemma append_inj_l (p a b : string) : p ++ a = p ++ b -> a = b.
Proof.
  induction p as [|c p IH]; [done|].
  change (String c p ++ a) with (String c (p ++ a)).
  change (String c p ++ b) with (String c (p ++ b)).
  intros [= H]. by apply IH.
Qed.

Lemma error_key_eqb (e1 e2 : Exception) :
  String.eqb (error_key e1) (error_key e2)
  = String.eqb (PyStr.take 50 (exc_str e1)) (PyStr.take 50 (exc_str e2)).
Proof.
  unfold error_key.
  destruct (String.eqb (PyStr.take 50 (exc_str e1)) (PyStr.take 50 (exc_str e2))) eqn:E.
  - apply String.eqb_eq in E. rewrite E. apply String.eqb_refl.
  - apply String.eqb_neq in E. apply String.eqb_neq. intros H. apply E.
    by apply append_inj_l in H.
Qed.

(** X7. The key of a failure is made of the first 50 characters of its
    text and of nothing else, not of its class: handling a failure moves
    the counter of another one exactly when the two texts agree on their
    first 50 characters. *)
Theorem counter_shared_by_text_prefix (e1 e2 : Exception) (st : State W) :
  attempts_of (handle_revenue_error alt alert now e1 st).2 (error_key e2)
  = attempts_of st (error_key e2)
    + (if String.eqb (PyStr.take 50 (exc_str e1)) (PyStr.take 50 (exc_str e2))
       then 1 else 0).
Proof.
  rewrite <- error_key_eqb.
  destruct (String.eqb (error_key e1) (error_key e2)) eqn:E.
  - apply String.eqb_eq in E. rewrite <- E.
    apply Recovery.attempts_of_after_handle_same.
  - apply String.eqb_neq in E. rewrite (attempts_of_after_handle_other e1 _ st E). lia.
Qed.

End Proofs.


Lemma failed_fallback_is_swallowed_witness :
  (handle_revenue_error fallback_down send_alert fixed_clock timeout_error initial_state).1
  = Ok tt.
Proof.
  apply (failed_fallback_is_swallowed fallback_down send_alert fixed_clock
           timeout_error (mkException "ConnectionError" "payment provider unreachable")
           initial_state).
  - vm_compute. discriminate.
  - reflexivity.
Defined.

End Ledger.


(** ** The revenue cycle *)

Module RevenueCycle.
Import RecoveryFacts LedgerFacts RevenueCycleFacts.
Section Proofs.
Context {W : Type}.
Variable get_daily_revenue : W -> result Z * W.
Variable exec : Z -> W -> result unit * W.
Variable follow nurture prioritize alt : W -> result unit * W.
Variable alert : string -> W -> result unit * W.
Variable now : W -> string.

Abbreviation steps := (revenue_steps get_daily_revenue exec follow nurture prioritize).
Abbreviation cycle :=
  (_autonomous_revenue_cycle get_daily_revenue exec follow nurture prioritize
     alt alert now).

Ltac run_steps :=
  unfold revenue_steps, call, log, emit, on_world, modify;
  unfold mbind, SE_bind, mret, SE_ret;
  cbn [recovery_attempts jobs world trace fst snd].

Ltac run_call f :=
  match goal with
  | |- context [f ?w] => destruct (f w) as [[[]|?e] ?w'] eqn:?
  end; cbn [recovery_attempts jobs world trace fst snd].

(** The steps leave the counters and the jobs alone, and neither send an
    alert nor try the fallback. *)
Lemma revenue_steps_frame (st : State W) :
  exists events,
    trace (steps st).2 = (trace st ++ events)%list
    /\ recovery_attempts (steps st).2 = recovery_attempts st
    /\ jobs (steps st).2 = jobs st
    /\ alerts_in events = 0%nat
    /\ fallbacks_in events = 0%nat.
Proof.
  run_steps.
  destruct (get_daily_revenue (world st)) as [[r|e] w0]; cbn [recovery_attempts jobs world trace fst snd].
  2:{ eexists. split; [reflexivity|]. repeat split. }
  destruct (0 <? daily_revenue_target - r)%Z.
  2:{ cbn. rewrite <- app_assoc. eexists. split; [reflexivity|]. repeat split. }
  run_call (exec (daily_revenue_target - r)).
  2:{ rewrite <- ?app_assoc. eexists. split; [reflexivity|]. repeat split. }
  run_call follow.
  2:{ rewrite <- ?app_assoc. eexists. split; [reflexivity|]. repeat split. }
  run_call nurture.
  2:{ rewrite <- ?app_assoc. eexists. split; [reflexivity|]. repeat split. }
  run_call prioritize.
  2:{ rewrite <- ?app_assoc. eexists. split; [reflexivity|]. repeat split. }
  rewrite <- ?app_assoc. eexists. split; [reflexivity|]. repeat split.
Qed.

(** X8. When the revenue read is at or above the daily target of 1000,
    the cycle runs none of the four revenue activities: it logs the start,
    reads the revenue, logs the completion and returns, the counters and
    the jobs as they were. *)
Theorem target_met_runs_no_activity (current_revenue : Z) (st : State W) :
  (get_daily_revenue (world st)).1 = Ok current_revenue ->
  daily_revenue_target <= current_revenue ->
  cycle st
  = (Ok tt,
     mkState (recovery_attempts st) (jobs st) (get_daily_revenue (world st)).2
       (trace st ++ [Logged Info_starting_revenue_cycle;
                     Called Call_get_daily_revenue;
                     Logged (Info_revenue_cycle_complete current_revenue
                               daily_revenue_target)])).
Proof.
  intros Hget Hmet. rewrite Operation.revenue_cycle_unfold.
  run_steps.
  destruct (get_daily_revenue (world st)) as [r w0]. cbn in Hget. subst r.
  cbn [recovery_attempts jobs world trace fst snd].
  rewrite (proj2 (Z.ltb_ge _ _)) by lia.
  cbn. by rewrite <- !app_assoc.
Qed.


(** X10. A cycle started with no failure counted yet, as an orchestrator
    is when it has just been built, returns and sends no alert when its
    steps and the fallback return or raise an instance of [Exception] (the
    outcomes of a collaborator of the model, which the [except Exception]
    of the cycle and of the handler catch): its one failure, if any, is the
    first under its key. *)
Theorem first_failure_never_escalates (st : State W) :
  recovery_attempts st = ∅ ->
  (cycle st).1 = Ok tt
  /\ alerts_in (events_since st (cycle st).2) = 0%nat.
Proof.
  intros Hfresh. rewrite Operation.revenue_cycle_unfold.
  set (st1 := (log Info_starting_revenue_cycle st).2).
  assert (Htr1 : trace st1 = (trace st ++ [Logged Info_starting_revenue_cycle])%list) by reflexivity.
  assert (Hat1 : recovery_attempts st1 = ∅) by exact Hfresh.
  destruct (revenue_steps_frame st1) as (evs & Htr & Hat & _ & Ha & _).
  destruct (steps st1) as [[[]|e] s']; cbn [fst snd] in *.
  - split; [reflexivity|]. unfold events_since.
    rewrite Htr, Htr1, <- app_assoc, drop_app_length.
    change (alerts_in ([Logged Info_starting_revenue_cycle] ++ evs)) with (alerts_in evs).
    exact Ha.
  - rewrite Recovery.handle_revenue_error_spec.
    unfold attempts_of. rewrite Hat, Hat1, lookup_empty. cbn [default].
    change (0 + 1 <=? max_recovery_attempts)%Z with true. cbv iota.
    unfold recover. destruct (alt (world s')) as [r w']. cbn [fst snd trace].
    split; [reflexivity|]. unfold events_since. cbn [trace snd].
    rewrite Htr, Htr1, <- !app_assoc, drop_app_length.
    rewrite !Ledger.alerts_in_app, Ha. reflexivity.
Qed.

End Proofs.

Lemma target_met_runs_no_activity_witness :
  (_autonomous_revenue_cycle (revenue_is 1200) strategy_fails activity_runs activity_runs
     activity_runs fallback_ok send_alert fixed_clock initial_state).1 = Ok tt.
Proof.
  rewrite (target_met_runs_no_activity (revenue_is 1200) strategy_fails activity_runs
             activity_runs activity_runs fallback_ok send_alert fixed_clock
             1200 initial_state).
  - reflexivity.
  - reflexivity.
  - vm_compute. discriminate.
Defined.


Lemma first_failure_never_escalates_witness :
  (_autonomous_revenue_cycle revenue_unread strategy_runs activity_runs activity_runs
     activity_runs fallback_ok send_alert fixed_clock initial_state).1 = Ok tt.
Proof.
  apply (first_failure_never_escalates revenue_unread strategy_runs activity_runs
           activity_runs activity_runs fallback_ok send_alert fixed_clock initial_state).
  reflexivity.
Defined.

End RevenueCycle.


(** ** The research of the qualified leads *)

Module Research.
Import AutonomousDecisionEngine LeadScorerFacts QualificationFacts RecoveryFacts ResearchFacts.
Section Proofs.

Context {W : Type}.
Variable research : Lead -> W -> result Lead * W.



Lemma qualify_loop_raises (lead : Lead) (e : Exception) (post : list Lead) :
  qualifies lead = true ->
  (forall w, (research lead w).1 = Raise e) ->
  forall (acc : list Lead) (st : State W),
    (qualify_loop research (lead :: post) acc st).1 = Raise e.
Proof.
  intros Hq Hdown acc st. cbn [qualify_loop].
  unfold qualifies in Hq.
  destruct (calculate_lead_score lead) as [score|]; [|discriminate].
  unfold mbind at 1, SE_bind at 1, lift_result. rewrite Hq.
  unfold call, emit, on_world, modify, mbind, SE_bind.
  cbn [world recovery_attempts jobs trace].
  specialize (Hdown (world st)).
  destruct (research lead (world st)) as [r w']. cbn in Hdown. by subst r.
Qed.

(** X12. The qualification has no handler of its own: when the research
    raises for a lead that qualifies, the error leaves
    [_auto_qualify_leads] and nothing is returned, whatever was qualified
    before that lead and whatever comes after it. *)
Theorem failed_research_loses_the_batch
  (pre post : list Lead) (lead : Lead) (e : Exception) (st : State W) :
  Forall (fun l => scorable l = true) pre ->
  Forall (fun l => forall w, exists researched, (research l w).1 = Ok researched) pre ->
  qualifies lead = true ->
  (forall w, (research lead w).1 = Raise e) ->
  (_auto_qualify_leads research (pre ++ lead :: post) st).1 = Raise e.
Proof.
  intros Hpre Hres Hq Hdown. unfold _auto_qualify_leads.
  generalize (@nil Lead) as acc. revert st.
  induction Hpre as [|l rest Hl _ IH]; intros st acc.
  - by apply qualify_loop_raises.
  - apply Forall_cons in Hres as [Hres1 Hres].
    apply LeadScorer.calculate_lead_score_returns_iff in Hl as [score Hscore].
    change ((l :: rest) ++ lead :: post)%list with (l :: (rest ++ lead :: post))%list.
    cbn [qualify_loop]. rewrite Hscore.
    unfold mbind at 1, SE_bind at 1, lift_result.
    destruct (PrimFloat.leb 0.7%float score).
    + unfold call, emit, on_world, modify, mbind, SE_bind.
      cbn [world recovery_attempts jobs trace].
      destruct (Hres1 (world st)) as [researched Hr].
      destruct (research l (world st)) as [r w']. cbn in Hr. subst r.
      apply (IH Hres).
    + apply (IH Hres).
Qed.

End Proofs.


Lemma failed_research_loses_the_batch_witness :
  (_auto_qualify_leads research_needs_size
     ([vp_of_engineering; analyst_lead] ++ founder_lead :: [vp_of_engineering]) idle).1
  = Raise (mkException "KeyError" "'company_size'").
Proof.
  apply (failed_research_loses_the_batch research_needs_size
           [vp_of_engineering; analyst_lead] [vp_of_engineering] founder_lead).
  - repeat constructor.
  - repeat constructor; intros w; eexists; reflexivity.
  - vm_compute. reflexivity.
  - intros w. reflexivity.
Defined.

End Research.


(** ** The runs of the agents *)

Module AgentRun.
Import AgentFacts AgentRunFacts.

Section Pattern.
Context {W : Type}.

Lemma keeps_status_ret {A} (v : A) : keeps_status (W := W) (mret v).
Proof. by intros a. Qed.

Lemma keeps_status_lift {A} (r : result A) : keeps_status (W := W) (lift_result r).
Proof. by intros a. Qed.

Lemma keeps_status_gets {A} (f : Agent W -> A) : keeps_status (gets f).
Proof. by intros a. Qed.

Lemma keeps_status_on_services {A} (f : W -> result A * W) : keeps_status (on_services f).
Proof. intros a. unfold on_services. by destruct (f (services a)). Qed.

Lemma keeps_status_bind {A B} (m : SE (Agent W) A) (k : A -> SE (Agent W) B) :
  keeps_status m -> (forall v, keeps_status (k v)) -> keeps_status (m ≫= k).
Proof.
  intros Hm Hk a. unfold mbind, SE_bind.
  destruct (Hm a) as [H1 H2]. destruct (m a) as [[v|e] a']; cbn [snd] in *.
  - destruct (Hk v a') as [H3 H4]. split; congruence.
  - by split.
Qed.

(** The shape all the agents give [execute_task]: the status is set to
    [WORKING]; the branches run in a [try] whose [except] sets [ERROR] and
    returns the error, and whose [finally] sets [COMPLETED]. *)
Lemma guarded_run (body : SE (Agent W) pyval) (a : Agent W) :
  keeps_status body ->
  (set_status WORKING;;
   try_finally
     (try_except body (fun e => set_status ERROR;; mret (error_reply e)))
     (set_status COMPLETED)) a
  = match body (set_status WORKING a).2 with
    | (Ok v, a') =>
        (Ok v, mkAgent COMPLETED (status_history a ++ [WORKING; COMPLETED]) (services a'))
    | (Raise e, a') =>
        (Ok (error_reply e),
         mkAgent COMPLETED (status_history a ++ [WORKING; ERROR; COMPLETED]) (services a'))
    end.
Proof.
  intros Hbody.
  unfold try_finally, try_except, mbind, SE_bind, set_status at 1, modify at 1.
  destruct (Hbody (set_status WORKING a).2) as [_ Hh].
  change (set_status WORKING a).2
    with (mkAgent WORKING (status_history a ++ [WORKING]) (services a)) in *.
  destruct (body _) as [[v|e] a']; cbn in Hh |- *; rewrite Hh, <- !app_assoc; reflexivity.
Qed.

End Pattern.

Section Kimono.
Context {W : Type}.
Variable _send_order_confirmation : pyval -> pyval -> W -> result unit * W.
Variable _schedule_styling_session : gmap string pyval -> W -> result pyval * W.
Variable _styling_followup : gmap string pyval -> W -> result pyval * W.
Variable isoformat_in_21_days : W -> string.

Abbreviation kimono_execute_task :=
  (SENANUKimonoAgent.execute_task _send_order_confirmation _schedule_styling_session
     _styling_followup isoformat_in_21_days).

Abbreviation process_order :=
  (SENANUKimonoAgent._process_custom_order _send_order_confirmation isoformat_in_21_days).

Lemma process_order_keeps_status (data : gmap string pyval) :
  keeps_status (process_order data).
Proof.
  unfold SENANUKimonoAgent._process_custom_order.
  repeat first
    [ apply keeps_status_bind; [|intros ?]
    | apply keeps_status_lift | apply keeps_status_gets
    | apply keeps_status_on_services | apply keeps_status_ret ].
Qed.

(** X13. Whatever the task, and with services that return or raise an
    instance of [Exception] (the outcomes of a collaborator of the model,
    which the [except Exception] of line 42 catches),
    [SENANUKimonoAgent.execute_task] raises nothing: it returns a reply and
    leaves the agent [COMPLETED].  The status goes either through [WORKING]
    to [COMPLETED], or, when a branch raised, through [WORKING] and [ERROR]
    to [COMPLETED], the reply then being the error as a dict. *)
Theorem kimono_task_never_raises (task : Task) (agent : Agent W) :
  exists reply,
    (kimono_execute_task task agent).1 = Ok reply
    /\ status (kimono_execute_task task agent).2 = COMPLETED
    /\ (status_history (kimono_execute_task task agent).2
          = (status_history agent ++ [WORKING; COMPLETED])%list
        \/ (status_history (kimono_execute_task task agent).2
              = (status_history agent ++ [WORKING; ERROR; COMPLETED])%list
            /\ exists e, reply = error_reply e)).
Proof.
  unfold SENANUKimonoAgent.execute_task. rewrite guarded_run.
  - destruct (_ (set_status WORKING agent).2) as [[v|e] a'].
    + exists v. split; [reflexivity|]. split; [reflexivity|]. by left.
    + exists (error_reply e). split; [reflexivity|]. split; [reflexivity|].
      right. split; [reflexivity|]. by exists e.
  - destruct (String.eqb (task_type task) "process_kimono_order").
    { apply keeps_status_bind; [apply process_order_keeps_status|].
      intros ?. apply keeps_status_ret. }
    destruct (String.eqb (task_type task) "schedule_styling").
    { apply keeps_status_bind; [apply keeps_status_on_services|].
      intros ?. apply keeps_status_ret. }
    destruct (String.eqb (task_type task) "follow_up_styling").
    { apply keeps_status_bind; [apply keeps_status_on_services|].
      intros ?. apply keeps_status_ret. }
    apply keeps_status_ret.
Qed.

Lemma kimono_order_task (payload : gmap string pyval) (agent : Agent W) :
  kimono_execute_task (mkTask "process_kimono_order" payload) agent
  = match (order ← process_order payload;
           mret (PyDict (<["order" := order]> (<["status" := PyStr "processed"]> ∅))))
            (set_status WORKING agent).2 with
    | (Ok v, a') =>
        (Ok v, mkAgent COMPLETED (status_history agent ++ [WORKING; COMPLETED]) (services a'))
    | (Raise e, a') =>
        (Ok (error_reply e),
         mkAgent COMPLETED (status_history agent ++ [WORKING; ERROR; COMPLETED]) (services a'))
    end.
Proof.
  unfold SENANUKimonoAgent.execute_task. cbn [task_type data].
  change (String.eqb "process_kimono_order" "process_kimono_order") with true. cbv iota.
  apply guarded_run.
  apply keeps_status_bind; [apply process_order_keeps_status|].
  intros ?. apply keeps_status_ret.
Qed.

(** X14. An order without the customer's email is never confirmed: the
    task comes back as an error reply, the confirmation is not sent (the
    services are as they were) and the agent is left [COMPLETED] after
    [ERROR]. *)
Theorem order_without_email_is_not_confirmed (data : gmap string pyval) (agent : Agent W) :
  data !! "customer_email" = None ->
  exists e,
    kimono_execute_task (mkTask "process_kimono_order" data) agent
    = (Ok (error_reply e),
       mkAgent COMPLETED (status_history agent ++ [WORKING; ERROR; COMPLETED])
         (services agent)).
Proof.
  intros Hmail. rewrite kimono_order_task.
  unfold SENANUKimonoAgent._process_custom_order, dict_getitem.
  rewrite Hmail.
  unfold mbind, SE_bind, lift_result, gets, set_status, modify. cbn [fst snd services].
  destruct (data !! "customer_id") as [cid|]; [|by eexists].
  destruct (SENANUKimonoAgent._calculate_custom_price _ _) as [price|e]; by eexists.
Qed.

Lemma price_exact (n : Z) :
  0 <= n <= 1000 ->
  (450.0 + 150.0 + float_of_len n * 75.0)%float = price_for n.
Proof.
  intros Hn.
  assert (Hall : forallb (fun k =>
            PrimFloat.Leibniz.eqb
              (450.0 + 150.0 + float_of_len (Z.of_nat k) * 75.0)%float
              (price_for (Z.of_nat k))) (seq 0 1001) = true)
    by (vm_compute; reflexivity).
  rewrite forallb_forall in Hall.
  specialize (Hall (Z.to_nat n)). rewrite Z2Nat.id in Hall by lia.
  apply FloatAxioms.Leibniz.eqb_spec, Hall, in_seq. lia.
Qed.

Lemma custom_price_exact (measurements fabrics : pyval) (n : Z) :
  py_len fabrics = Ok n -> 0 <= n <= 1000 ->
  SENANUKimonoAgent._calculate_custom_price measurements fabrics = Ok (price_for n).
Proof.
  intros Hlen Hn. unfold SENANUKimonoAgent._calculate_custom_price.
  rewrite Hlen. cbn [mbind result_bind]. by rewrite (price_exact n Hn).
Qed.

(** X15. An order with a customer id, a customer email and [n] fabrics
    ([n] up to 1000, none when the key is absent) is priced
    [600 + 75 n], exactly, and confirmed: the confirmation is sent to the
    customer's email with the order, and when it returns the reply holds
    the order and the status "processed". *)
Theorem order_is_priced_and_confirmed
  (data : gmap string pyval) (customer_id customer_email : pyval) (n : Z)
  (agent : Agent W) :
  data !! "customer_id" = Some customer_id ->
  data !! "customer_email" = Some customer_email ->
  py_len (dict_get data "fabric_preferences" (PyList [])) = Ok n ->
  n <= 1000 ->
  let order :=
    order_of data customer_id (isoformat_in_21_days (services agent)) n in
  (_send_order_confirmation customer_email order (services agent)).1 = Ok tt ->
  kimono_execute_task (mkTask "process_kimono_order" data) agent
  = (Ok (PyDict (<["order" := order]> (<["status" := PyStr "processed"]> ∅))),
     mkAgent COMPLETED (status_history agent ++ [WORKING; COMPLETED])
       (_send_order_confirmation customer_email order (services agent)).2).
Proof.
  intros Hid Hmail Hlen Hn order Hsend. rewrite kimono_order_task.
  assert (H0 : 0 <= n).
  { destruct (dict_get data "fabric_preferences" (PyList [])); cbn in Hlen;
      try discriminate; injection Hlen as <-; lia. }
  unfold SENANUKimonoAgent._process_custom_order, dict_getitem.
  rewrite Hid, Hmail, (custom_price_exact _ _ n Hlen) by lia.
  unfold mbind, SE_bind, lift_result, gets, on_services, set_status, modify, mret, SE_ret.
  cbn [fst snd services status status_history].
  fold (order_of data customer_id (isoformat_in_21_days (services agent)) n).
  fold order.
  destruct (_send_order_confirmation customer_email order (services agent)) as [r w'].
  cbn in Hsend. subst r. reflexivity.
Qed.

End Kimono.

Section Podcast.
Context {W : Type}.
Variable _personalize_pitch : pyval -> pyval -> W -> result pyval * W.
Variable isoformat_now : W -> string.

Abbreviation podcast_execute_task :=
  (PodcastBookingAgent.execute_task _personalize_pitch isoformat_now).

Abbreviation pitch_loop :=
  (PodcastBookingAgent.pitch_loop _personalize_pitch isoformat_now).

Hypothesis personalize_returns :
  forall template podcast w, exists pitch, (_personalize_pitch template podcast w).1 = Ok pitch.

Lemma pitch_loop_keeps_status (template : pyval) (podcasts results : list pyval) :
  keeps_status (pitch_loop template podcasts results).
Proof.
  revert results. induction podcasts as [|p rest IH]; intros results; cbn [PodcastBookingAgent.pitch_loop].
  - apply keeps_status_ret.
  - repeat first
      [ apply IH
      | apply keeps_status_bind; [|intros ?]
      | apply keeps_status_lift | apply keeps_status_gets
      | apply keeps_status_on_services | apply keeps_status_ret ].
Qed.

Lemma pitch_loop_run (template : pyval) (podcasts : list pyval) :
  forallb pitchable podcasts = true ->
  forall (results : list pyval) (a : Agent W),
  exists sent a',
    pitch_loop template podcasts results a = (Ok (results ++ sent)%list, a')
    /\ Forall2 pitched podcasts sent.
Proof.
  induction podcasts as [|p rest IH]; intros Hall results a.
  - exists [], a. rewrite app_nil_r. split; [reflexivity|constructor].
  - cbn [forallb] in Hall. apply andb_prop in Hall as [Hp Hrest].
    destruct p as [| | | | | |d]; try discriminate. cbn [pitchable] in Hp.
    destruct (d !! "name") as [name|] eqn:Hname; [|discriminate].
    destruct (d !! "email") as [email|] eqn:Hemail; [|discriminate].
    cbn [PodcastBookingAgent.pitch_loop py_getitem]. unfold dict_getitem.
    rewrite Hname, Hemail.
    unfold mbind at 1, SE_bind at 1, on_services.
    destruct (personalize_returns template (PyDict d) (services a)) as [pitch Hpitch].
    destruct (_personalize_pitch template (PyDict d) (services a)) as [r w'].
    cbn in Hpitch. subst r.
    unfold mbind, SE_bind, lift_result, gets. cbn [services status status_history].
    match goal with |- context [PodcastBookingAgent.pitch_loop _ _ template rest ?rs ?s] =>
      destruct (IH Hrest rs s) as (sent & a' & Hrun & Hsent) end.
    eexists (_ :: sent), a'. split; [rewrite Hrun; by rewrite <- app_assoc|].
    constructor; [|exact Hsent].
    eexists d, _. split; [reflexivity|]. split; [reflexivity|].
    rewrite Hname, Hemail. repeat split.
Qed.

Lemma pitch_loop_fails (template : pyval) (pre post : list pyval) (d : gmap string pyval) :
  forallb pitchable pre = true ->
  pitchable (PyDict d) = false ->
  forall (results : list pyval) (a : Agent W),
  exists e a',
    pitch_loop template (pre ++ PyDict d :: post) results a = (Raise e, a')
    /\ exc_class e = "KeyError".
Proof.
  intros Hpre Hbad. induction pre as [|p rest IH]; intros results a.
  - cbn [app PodcastBookingAgent.pitch_loop py_getitem]. unfold dict_getitem.
    unfold mbind at 1, SE_bind at 1, on_services.
    destruct (personalize_returns template (PyDict d) (services a)) as [pitch Hpitch].
    destruct (_personalize_pitch template (PyDict d) (services a)) as [r w'].
    cbn in Hpitch. subst r. cbn [pitchable] in Hbad.
    unfold mbind, SE_bind, lift_result, gets.
    destruct (d !! "name") as [name|]; [|by eexists _, _].
    destruct (d !! "email") as [email|]; [discriminate|by eexists _, _].
  - cbn [forallb] in Hpre. apply andb_prop in Hpre as [Hp Hrest].
    destruct p as [| | | | | |d']; try discriminate. cbn [pitchable] in Hp.
    destruct (d' !! "name") as [name|] eqn:Hname; [|discriminate].
    destruct (d' !! "email") as [email|] eqn:Hemail; [|discriminate].
    change ((PyDict d' :: rest) ++ PyDict d :: post)%list
      with (PyDict d' :: (rest ++ PyDict d :: post))%list.
    cbn [PodcastBookingAgent.pitch_loop py_getitem]. unfold dict_getitem.
    rewrite Hname, Hemail.
    unfold mbind at 1, SE_bind at 1, on_services.
    destruct (personalize_returns template (PyDict d') (services a)) as [pitch Hpitch].
    destruct (_personalize_pitch template (PyDict d') (services a)) as [r w'].
    cbn in Hpitch. subst r.
    unfold mbind, SE_bind, lift_result, gets. cbn [services status status_history].
    apply (IH Hrest).
Qed.

Lemma podcast_pitch_task (payload : gmap string pyval) (agent : Agent W) :
  podcast_execute_task (mkTask "pitch_podcast" payload) agent
  = match (pitch_results ←
             PodcastBookingAgent._send_podcast_pitches _personalize_pitch isoformat_now payload;
           mret (PyDict (<["pitches_sent" := PyInt (Z.of_nat (length pitch_results))]>
                        (<["results" := PyList pitch_results]> ∅))))
            (set_status WORKING agent).2 with
    | (Ok v, a') =>
        (Ok v, mkAgent COMPLETED (status_history agent ++ [WORKING; COMPLETED]) (services a'))
    | (Raise e, a') =>
        (Ok (error_reply e),
         mkAgent COMPLETED (status_history agent ++ [WORKING; ERROR; COMPLETED]) (services a'))
    end.
Proof.
  unfold PodcastBookingAgent.execute_task. cbn [task_type data].
  change (String.eqb "pitch_podcast" "find_podcasts") with false.
  change (String.eqb "pitch_podcast" "pitch_podcast") with true. cbv iota.
  apply guarded_run.
  apply keeps_status_bind; [|intros ?; apply keeps_status_ret].
  unfold PodcastBookingAgent._send_podcast_pitches.
  apply keeps_status_bind; [apply keeps_status_lift|intros ?].
  apply keeps_status_bind; [apply keeps_status_lift|intros ?].
  apply pitch_loop_keeps_status.
Qed.

Lemma pitch_task_run (payload : gmap string pyval) (podcasts : list pyval) (agent : Agent W) :
  payload !! "podcasts" = Some (PyList podcasts) ->
  forallb pitchable podcasts = true ->
  exists results w',
    podcast_execute_task (mkTask "pitch_podcast" payload) agent
    = (Ok (PyDict (<["pitches_sent" := PyInt (Z.of_nat (length podcasts))]>
                  (<["results" := PyList results]> ∅))),
       mkAgent COMPLETED (status_history agent ++ [WORKING; COMPLETED]) w')
    /\ Forall2 pitched podcasts results.
Proof.
  intros Hdata Hall. rewrite podcast_pitch_task.
  unfold PodcastBookingAgent._send_podcast_pitches, dict_getitem. rewrite Hdata.
  unfold mbind at 2 3, SE_bind at 2 3, lift_result. cbn [py_iter].
  unfold mbind, SE_bind.
  match goal with |- context [PodcastBookingAgent.pitch_loop _ _ ?t podcasts ?rs ?s] =>
    destruct (pitch_loop_run t podcasts Hall rs s) as (sent & a' & Hrun & Hsent);
    rewrite Hrun end.
  cbn [app mret SE_ret fst snd status_history].
  exists sent, (services a'). rewrite (Forall2_length _ _ _ Hsent). by split.
Qed.

Lemma pitch_task_fails
  (payload : gmap string pyval) (pre post : list pyval) (d : gmap string pyval)
  (agent : Agent W) :
  payload !! "podcasts" = Some (PyList (pre ++ PyDict d :: post)) ->
  forallb pitchable pre = true ->
  pitchable (PyDict d) = false ->
  exists e w',
    podcast_execute_task (mkTask "pitch_podcast" payload) agent
    = (Ok (error_reply e),
       mkAgent COMPLETED (status_history agent ++ [WORKING; ERROR; COMPLETED]) w')
    /\ exc_class e = "KeyError".
Proof.
  intros Hdata Hpre Hbad. rewrite podcast_pitch_task.
  unfold PodcastBookingAgent._send_podcast_pitches, dict_getitem. rewrite Hdata.
  unfold mbind at 2 3, SE_bind at 2 3, lift_result. cbn [py_iter].
  unfold mbind, SE_bind.
  match goal with |- context [PodcastBookingAgent.pitch_loop _ _ ?t _ ?rs ?s] =>
    destruct (pitch_loop_fails t pre post d Hpre Hbad rs s) as (e & a' & Hrun & He);
    rewrite Hrun end.
  exists e, (services a'). by split.
Qed.

(** X16. A pitch task whose podcasts are dicts with a name and an email
    sends one pitch for each of them, in their order: the reply counts as
    many pitches as podcasts, and the record of each names the podcast, is
    addressed to its email and has the status "sent". *)
Theorem one_pitch_for_each_podcast
  (data : gmap string pyval) (podcasts : list pyval) (agent : Agent W) :
  data !! "podcasts" = Some (PyList podcasts) ->
  forallb pitchable podcasts = true ->
  exists results,
    (podcast_execute_task (mkTask "pitch_podcast" data) agent).1
    = Ok (PyDict (<["pitches_sent" := PyInt (Z.of_nat (length podcasts))]>
                 (<["results" := PyList results]> ∅)))
    /\ Forall2 pitched podcasts results
    /\ status_history (podcast_execute_task (mkTask "pitch_podcast" data) agent).2
       = (status_history agent ++ [WORKING; COMPLETED])%list.
Proof.
  intros Hdata Hall.
  destruct (pitch_task_run data podcasts agent Hdata Hall) as (results & w' & Hrun & Hsent).
  exists results. rewrite Hrun. by repeat split.
Qed.

(** X17. With a [_personalize_pitch] that returns (the hypothesis
    [personalize_returns] of the section), the pitches of a task are all
    lost with the first podcast that has no name or no email: the pitches
    before it were made, yet the reply is the [KeyError] alone, with none of
    their records. *)
Theorem pitches_lost_with_a_bad_podcast
  (data : gmap string pyval) (pre post : list pyval) (d : gmap string pyval)
  (agent : Agent W) :
  data !! "podcasts" = Some (PyList (pre ++ PyDict d :: post)) ->
  forallb pitchable pre = true ->
  pitchable (PyDict d) = false ->
  exists e,
    exc_class e = "KeyError"
    /\ (podcast_execute_task (mkTask "pitch_podcast" data) agent).1 = Ok (error_reply e)
    /\ status_history (podcast_execute_task (mkTask "pitch_podcast" data) agent).2
       = (status_history agent ++ [WORKING; ERROR; COMPLETED])%list.
Proof.
  intros Hdata Hpre Hbad.
  destruct (pitch_task_fails data pre post d agent Hdata Hpre Hbad) as (e & w' & Hrun & He).
  exists e. rewrite Hrun. by repeat split.
Qed.

(** X18. What the agent finds it can pitch: for whatever criteria, the
    task "find_podcasts" replies with two podcasts, each a dict with a name
    and an email, so that, with a [_personalize_pitch] that returns (the
    hypothesis [personalize_returns] of the section), a pitch task on them
    sends two pitches. *)
Theorem found_podcasts_can_be_pitched (criteria : gmap string pyval) (agent agent' : Agent W) :
  exists podcasts results,
    (podcast_execute_task (mkTask "find_podcasts" criteria) agent).1
    = Ok (PyDict (<["podcasts_found" := PyInt 2]> (<["podcasts" := PyList podcasts]> ∅)))
    /\ forallb pitchable podcasts = true
    /\ (podcast_execute_task
          (mkTask "pitch_podcast" (<["podcasts" := PyList podcasts]> ∅)) agent').1
       = Ok (PyDict (<["pitches_sent" := PyInt 2]> (<["results" := PyList results]> ∅)))
    /\ Forall2 pitched podcasts results.
Proof.
  assert (Hall : forallb pitchable PodcastBookingAgent.podcast_database = true)
    by (vm_compute; reflexivity).
  destruct (pitch_task_run (<["podcasts" := PyList PodcastBookingAgent.podcast_database]> ∅)
              PodcastBookingAgent.podcast_database agent' (lookup_insert_eq _ _ _) Hall)
    as (results & w' & Hrun & Hsent).
  exists PodcastBookingAgent.podcast_database, results. rewrite Hrun.
  split; [reflexivity|]. split; [exact Hall|]. by split.
Qed.

End Podcast.

Lemma order_without_email_is_not_confirmed_witness :
  exists e,
    SENANUKimonoAgent.execute_task confirm_by_mail no_session no_session in_three_weeks
      (mkTask "process_kimono_order" order_data_without_email) kimono_agent
    = (Ok (error_reply e), mkAgent COMPLETED [WORKING; ERROR; COMPLETED] []).
Proof.
  apply (order_without_email_is_not_confirmed confirm_by_mail no_session no_session
           in_three_weeks order_data_without_email kimono_agent).
  reflexivity.
Defined.

Lemma order_is_priced_and_confirmed_witness :
  (SENANUKimonoAgent.execute_task confirm_by_mail no_session no_session in_three_weeks
     (mkTask "process_kimono_order" order_data) kimono_agent).2
  = mkAgent COMPLETED [WORKING; COMPLETED]
      [(PyStr "mika@example.org",
        order_of order_data (PyStr "c-17") "2024-02-05T08:00:00" 2)].
Proof.
  rewrite (order_is_priced_and_confirmed confirm_by_mail no_session no_session
             in_three_weeks order_data (PyStr "c-17") (PyStr "mika@example.org") 2
             kimono_agent).
  - reflexivity.
  - reflexivity.
  - reflexivity.
  - reflexivity.
  - lia.
  - reflexivity.
Defined.

Lemma one_pitch_for_each_podcast_witness :
  exists results,
    (PodcastBookingAgent.execute_task pitch_as_is morning
       (mkTask "pitch_podcast"
          (<["podcasts" := PyList PodcastBookingAgent.podcast_database]> ∅)) new_agent).1
    = Ok (PyDict (<["pitches_sent" :=
                      PyInt (Z.of_nat (length PodcastBookingAgent.podcast_database))]>
                 (<["results" := PyList results]> ∅)))
    /\ Forall2 pitched PodcastBookingAgent.podcast_database results
    /\ status_history
         (PodcastBookingAgent.execute_task pitch_as_is morning
            (mkTask "pitch_podcast"
               (<["podcasts" := PyList PodcastBookingAgent.podcast_database]> ∅))
            new_agent).2
       = ([] ++ [WORKING; COMPLETED])%list.
Proof.
  apply (one_pitch_for_each_podcast pitch_as_is morning).
  - intros template podcast w. exists template. reflexivity.
  - reflexivity.
  - vm_compute. reflexivity.
Defined.

Lemma pitches_lost_with_a_bad_podcast_witness :
  exists e,
    exc_class e = "KeyError"
    /\ (PodcastBookingAgent.execute_task pitch_as_is morning
          (mkTask "pitch_podcast"
             (<["podcasts" :=
                  PyList (PodcastBookingAgent.podcast_database
                          ++ nameless_podcast :: [])]> ∅)) new_agent).1
       = Ok (error_reply e)
    /\ status_history
         (PodcastBookingAgent.execute_task pitch_as_is morning
            (mkTask "pitch_podcast"
               (<["podcasts" :=
                    PyList (PodcastBookingAgent.podcast_database
                            ++ nameless_podcast :: [])]> ∅)) new_agent).2
       = ([] ++ [WORKING; ERROR; COMPLETED])%list.
Proof.
  apply (pitches_lost_with_a_bad_podcast pitch_as_is morning)
    with (pre := PodcastBookingAgent.podcast_database) (post := [])
         (d := <["email" := PyStr "host@example.org"]> ∅).
  - intros template podcast w. exists template. reflexivity.
  - reflexivity.
  - vm_compute. reflexivity.
  - vm_compute. reflexivity.
Defined.

Lemma found_podcasts_can_be_pitched_witness :
  exists podcasts results,
    (PodcastBookingAgent.execute_task pitch_as_is morning
       (mkTask "find_podcasts" ∅) new_agent).1
    = Ok (PyDict (<["podcasts_found" := PyInt 2]> (<["podcasts" := PyList podcasts]> ∅)))
    /\ forallb pitchable podcasts = true
    /\ (PodcastBookingAgent.execute_task pitch_as_is morning
          (mkTask "pitch_podcast" (<["podcasts" := PyList podcasts]> ∅)) new_agent).1
       = Ok (PyDict (<["pitches_sent" := PyInt 2]> (<["results" := PyList results]> ∅)))
    /\ Forall2 pitched podcasts results.
Proof.
  apply (found_podcasts_can_be_pitched pitch_as_is morning).
  intros template podcast w. exists template. reflexivity.
Defined.

End AgentRun.


(** ** The optimizer *)

Module Optimizer.
Import SelfOptimizingSystem OptimizerFacts.

(** The order of two finite floats of one exponent is the order of their
    mantissas. *)
Lemma finite_lt_trans (x : spec_float) (m1 m2 : positive) (e : Z) :
  (m1 < m2)%positive ->
  SFltb x (S754_finite false m1 e) = true -> SFltb x (S754_finite false m2 e) = true.
Proof.
  intros Hlt. unfold SFltb, SFcompare.
  destruct x as [s|s| |s m e']; try destruct s; try (intros; reflexivity); try discriminate.
  destruct (Z.compare e' e); try (intros; reflexivity); try discriminate.
  rewrite !Pos.compare_cont_spec. cbn [Pos.switch_Eq].
  destruct (Pos.compare m m1) eqn:E; try discriminate. intros _.
  apply Pos.compare_lt_iff in E.
  rewrite (proj2 (Pos.compare_lt_iff m m2)); [reflexivity|].
  exact (Pos.lt_trans _ _ _ E Hlt).
Qed.

Lemma finite_gt_trans (x : spec_float) (m1 m2 : positive) (e : Z) :
  (m2 < m1)%positive ->
  SFltb (S754_finite false m1 e) x = true -> SFltb (S754_finite false m2 e) x = true.
Proof.
  intros Hlt. unfold SFltb, SFcompare.
  destruct x as [s|s| |s m e']; try destruct s; try (intros; reflexivity); try discriminate.
  destruct (Z.compare e e'); try (intros; reflexivity); try discriminate.
  rewrite !Pos.compare_cont_spec. cbn [Pos.switch_Eq].
  destruct (Pos.compare m1 m) eqn:E; try discriminate. intros _.
  apply Pos.compare_lt_iff in E.
  rewrite (proj2 (Pos.compare_lt_iff m2 m)); [reflexivity|].
  exact (Pos.lt_trans _ _ _ Hlt E).
Qed.

Lemma float_below_090 (x : float) :
  PrimFloat.ltb x 0.90%float = true -> PrimFloat.ltb x 0.95%float = true.
Proof.
  rewrite !ltb_spec.
  change (Prim2SF 0.9) with (S754_finite false 8106479329266893 (-53)).
  change (Prim2SF 0.95) with (S754_finite false 8556839292003942 (-53)).
  apply finite_lt_trans. vm_compute. reflexivity.
Qed.

Lemma float_above_3 (x : float) :
  PrimFloat.ltb 3.0%float x = true -> PrimFloat.ltb 2.0%float x = true.
Proof.
  rewrite !ltb_spec.
  change (Prim2SF 3) with (S754_finite false 6755399441055744 (-51)).
  change (Prim2SF 2) with (S754_finite false 4503599627370496 (-51)).
  apply finite_gt_trans. vm_compute. reflexivity.
Qed.

Lemma below_090_below_095 (v : pyval) :
  py_lt_float v 0.90%float = Ok true -> py_lt_float v 0.95%float = Ok true.
Proof.
  destruct v as [|b|n|f| | |]; cbn [py_lt_float]; try discriminate; intros [= H]; f_equal.
  - unfold int_lt_float in *. destruct (_ <=? _)%Z; [by apply float_below_090|done].
  - unfold int_lt_float in *. destruct (_ <=? _)%Z; [by apply float_below_090|done].
  - by apply float_below_090.
Qed.

Lemma above_3_above_2 (v : pyval) :
  py_gt_float v 3.0%float = Ok true -> py_gt_float v 2.0%float = Ok true.
Proof.
  destruct v as [|b|n|f| | |]; cbn [py_gt_float]; try discriminate; intros [= H]; f_equal.
  - unfold int_gt_float in *. destruct (_ <=? _)%Z; [by apply float_above_3|done].
  - unfold int_gt_float in *. destruct (_ <=? _)%Z; [by apply float_above_3|done].
  - by apply float_above_3.
Qed.

Lemma number_compares (v : pyval) (c : float) :
  is_number v = true ->
  (exists b, py_lt_float v c = Ok b) /\ (exists b, py_gt_float v c = Ok b).
Proof. destruct v; try discriminate; intros _; cbn; eauto. Qed.

(** The loop on measured records: what it adds to the list. *)
Lemma optimization_loop_measured (items : list (string * pyval)) :
  forallb measured items = true ->
  forall optimizations : list pyval,
  exists added,
    optimization_loop items optimizations = Ok (optimizations ++ added)%list
    /\ (length added <= 2 * length items)%nat
    /\ Forall improving added
    /\ Forall (fun o => exists item, item ∈ items /\ agent_of o = Some (PyStr item.1)) added
    /\ (forallb healthy items = true -> added = []).
Proof.
  induction items as [|[agent_id performance] rest IH]; intros Hall optimizations.
  - exists []. rewrite app_nil_r. repeat split; constructor.
  - cbn [forallb] in Hall. apply andb_prop in Hall as [Hm Hrest].
    unfold measured in Hm. cbn [snd] in Hm.
    destruct performance as [| | | | | |d]; try discriminate.
    destruct (d !! "success_rate") as [s|] eqn:Hs; [|discriminate].
    destruct (d !! "response_time") as [r|] eqn:Hr; [|discriminate].
    apply andb_prop in Hm as [Hns Hnr].
    destruct (proj1 (number_compares s 0.90%float Hns)) as [low Hlow].
    destruct (proj2 (number_compares r 3.0%float Hnr)) as [slow Hslow].
    cbn [optimization_loop py_getitem]. unfold dict_getitem. rewrite Hs, Hr.
    cbn [mbind result_bind]. rewrite Hlow. cbn [mbind result_bind].
    assert (Hin : forall o, agent_of o = Some (PyStr agent_id) ->
              exists item, item ∈ (agent_id, PyDict d) :: rest
                           /\ agent_of o = Some (PyStr item.1)).
    { intros o Ho. exists (agent_id, PyDict d). split; [apply list_elem_of_here|exact Ho]. }
    assert (Hlater : forall added,
              Forall (fun o => exists item, item ∈ rest /\ agent_of o = Some (PyStr item.1)) added ->
              Forall (fun o => exists item, item ∈ (agent_id, PyDict d) :: rest
                                            /\ agent_of o = Some (PyStr item.1)) added).
    { intros added Hadded. eapply Forall_impl; [exact Hadded|].
      intros o (item & Hi & Ho).
      exists item. split; [by apply list_elem_of_further|exact Ho]. }
    assert (Hhealthy : healthy (agent_id, PyDict d) = negb low && negb slow).
    { unfold healthy. cbn [snd]. rewrite Hs, Hr, Hlow, Hslow. by destruct low, slow. }
    destruct low; cbn [mbind result_bind]; rewrite Hslow; cbn [mbind result_bind];
      destruct slow; cbn [mbind result_bind].
    + match goal with |- context [optimization_loop rest ?l] =>
        destruct (IH Hrest l) as (added & Hrun & Hlen & Himp & Hag & Hnone) end.
      eexists (_ :: _ :: added). rewrite Hrun, <- !app_assoc.
      split; [reflexivity|]. split; [cbn [length]; lia|].
      split; [|split].
      * constructor; [|constructor; [|exact Himp]].
        -- eexists _, s. split; [reflexivity|]. split; [reflexivity|]. left.
           split; [reflexivity|]. split; [reflexivity|]. by apply below_090_below_095.
        -- eexists _, r. split; [reflexivity|]. split; [reflexivity|]. right.
           split; [reflexivity|]. split; [reflexivity|]. by apply above_3_above_2.
      * constructor; [by apply Hin|]. constructor; [by apply Hin|]. by apply Hlater.
      * cbn [forallb]. rewrite Hhealthy. discriminate.
    + match goal with |- context [optimization_loop rest ?l] =>
        destruct (IH Hrest l) as (added & Hrun & Hlen & Himp & Hag & Hnone) end.
      eexists (_ :: added). rewrite Hrun, <- !app_assoc.
      split; [reflexivity|]. split; [cbn [length]; lia|].
      split; [|split].
      * constructor; [|exact Himp].
        eexists _, s. split; [reflexivity|]. split; [reflexivity|]. left.
        split; [reflexivity|]. split; [reflexivity|]. by apply below_090_below_095.
      * constructor; [by apply Hin|]. by apply Hlater.
      * cbn [forallb]. rewrite Hhealthy. discriminate.
    + match goal with |- context [optimization_loop rest ?l] =>
        destruct (IH Hrest l) as (added & Hrun & Hlen & Himp & Hag & Hnone) end.
      eexists (_ :: added). rewrite Hrun, <- !app_assoc.
      split; [reflexivity|]. split; [cbn [length]; lia|].
      split; [|split].
      * constructor; [|exact Himp].
        eexists _, r. split; [reflexivity|]. split; [reflexivity|]. right.
        split; [reflexivity|]. split; [reflexivity|]. by apply above_3_above_2.
      * constructor; [by apply Hin|]. by apply Hlater.
      * cbn [forallb]. rewrite Hhealthy. discriminate.
    + destruct (IH Hrest optimizations) as (added & Hrun & Hlen & Himp & Hag & Hnone).
      exists added. split; [exact Hrun|]. split; [cbn [length]; lia|].
      split; [exact Himp|]. split; [by apply Hlater|].
      cbn [forallb]. rewrite Hhealthy. cbn. exact Hnone.
Qed.

(** The loop on measured records, record by record. *)
Lemma optimization_loop_groups (items : list (string * pyval)) :
  forallb measured items = true ->
  forall optimizations : list pyval,
  exists groups,
    optimization_loop items optimizations = Ok (optimizations ++ concat groups)%list
    /\ Forall2 called_for items groups.
Proof.
  induction items as [|[agent_id performance] rest IH]; intros Hall optimizations.
  - exists []. cbn. rewrite app_nil_r. split; [reflexivity|constructor].
  - cbn [forallb] in Hall. apply andb_prop in Hall as [Hm Hrest].
    unfold measured in Hm. cbn [snd] in Hm.
    destruct performance as [| | | | | |d]; try discriminate.
    destruct (d !! "success_rate") as [s|] eqn:Hs; [|discriminate].
    destruct (d !! "response_time") as [r|] eqn:Hr; [|discriminate].
    apply andb_prop in Hm as [Hns Hnr].
    destruct (proj1 (number_compares s 0.90%float Hns)) as [low Hlow].
    destruct (proj2 (number_compares r 3.0%float Hnr)) as [slow Hslow].
    cbn [optimization_loop py_getitem]. unfold dict_getitem. rewrite Hs, Hr.
    cbn [mbind result_bind]. rewrite Hlow. cbn [mbind result_bind].
    assert (Hhealthy : healthy (agent_id, PyDict d) = negb low && negb slow).
    { unfold healthy. cbn [snd]. rewrite Hs, Hr, Hlow, Hslow. by destruct low, slow. }
    destruct low; cbn [mbind result_bind]; rewrite Hslow; cbn [mbind result_bind];
      destruct slow; cbn [mbind result_bind];
      match goal with |- context [optimization_loop rest ?l] =>
        destruct (IH Hrest l) as (groups & Hrun & Hgroups) end.
    + eexists ([_; _] :: groups). rewrite Hrun. cbn [concat]. rewrite <- !app_assoc.
      split; [reflexivity|]. constructor; [|exact Hgroups].
      split; [cbn; lia|]. split; [by repeat constructor|].
      rewrite Hhealthy. discriminate.
    + eexists ([_] :: groups). rewrite Hrun. cbn [concat]. rewrite <- !app_assoc.
      split; [reflexivity|]. constructor; [|exact Hgroups].
      split; [cbn; lia|]. split; [by repeat constructor|].
      rewrite Hhealthy. discriminate.
    + eexists ([_] :: groups). rewrite Hrun. cbn [concat]. rewrite <- !app_assoc.
      split; [reflexivity|]. constructor; [|exact Hgroups].
      split; [cbn; lia|]. split; [by repeat constructor|].
      rewrite Hhealthy. discriminate.
    + exists ([] :: groups). rewrite Hrun. cbn [concat app].
      split; [reflexivity|]. constructor; [|exact Hgroups].
      split; [cbn; lia|]. split; [constructor|]. done.
Qed.

(** X19. On records that hold both metrics as numbers,
    [_identify_optimizations] returns, record by record in the order of the
    input, at most two optimisations for the agent of the record and for no
    other agent, and none for a record whose success rate is not below 0.90
    and whose response time is not above 3.0: the list returned is made of
    one such group for each record. *)
Theorem optimizations_only_where_needed (performance_data : list (string * pyval)) :
  forallb measured performance_data = true ->
  exists groups,
    _identify_optimizations performance_data = Ok (concat groups)
    /\ Forall2 called_for performance_data groups.
Proof.
  intros Hall.
  destruct (optimization_loop_groups performance_data Hall []) as (groups & Hrun & Hgroups).
  exists groups. split; [exact Hrun|exact Hgroups].
Qed.

(** X20. Every optimisation returned moves its metric to the better side
    of what it is: a success rate reported below 0.90 gets the target 0.95
    above it, a response time reported above 3.0 gets the target 2.0 below
    it. *)
Theorem optimizations_improve (performance_data : list (string * pyval)) :
  forallb measured performance_data = true ->
  exists optimizations,
    _identify_optimizations performance_data = Ok optimizations
    /\ Forall improving optimizations.
Proof.
  intros Hall.
  destruct (optimization_loop_measured performance_data Hall [])
    as (added & Hrun & _ & Himp & _).
  exists added. by split.
Qed.

Lemma optimization_loop_missing_rate
  (pre post : list (string * pyval)) (agent_id : string) (d : gmap string pyval) :
  forallb measured pre = true ->
  d !! "success_rate" = None ->
  forall optimizations,
    optimization_loop (pre ++ (agent_id, PyDict d) :: post) optimizations
    = Raise (mkException "KeyError" "'success_rate'").
Proof.
  intros Hpre Hd. induction pre as [|item rest IH]; intros optimizations.
  - cbn [app optimization_loop py_getitem]. unfold dict_getitem. by rewrite Hd.
  - cbn [forallb] in Hpre. apply andb_prop in Hpre as [Hm Hrest].
    destruct (optimization_loop_measured [item] (proj2 (andb_true_iff _ _) (conj Hm eq_refl))
                optimizations) as (added & Hrun & _).
    destruct item as [id p].
    change (((id, p) :: rest) ++ (agent_id, PyDict d) :: post)%list
      with ((id, p) :: (rest ++ (agent_id, PyDict d) :: post))%list.
    cbn [optimization_loop] in Hrun |- *.
    destruct (py_getitem p "success_rate") as [s|]; [|discriminate]. cbn [mbind result_bind] in *.
    destruct (py_lt_float s 0.9%float) as [low|]; [|discriminate]. cbn [mbind result_bind] in *.
    destruct (if (low : bool) then _ else _) as [o1|]; [|discriminate]. cbn [mbind result_bind] in *.
    destruct (py_getitem p "response_time") as [r|]; [|discriminate]. cbn [mbind result_bind] in *.
    destruct (py_gt_float r 3%float) as [slow|]; [|discriminate]. cbn [mbind result_bind] in *.
    destruct (if (slow : bool) then _ else _) as [o2|]; [|discriminate]. cbn [mbind result_bind] in *.
    apply (IH Hrest).
Qed.

(** X21. One record without its success rate loses the whole analysis:
    [_identify_optimizations] raises the [KeyError] of the missing key and
    returns nothing, whatever the records before it called for and
    whatever comes after it. *)
Theorem missing_metric_loses_the_analysis
  (pre post : list (string * pyval)) (agent_id : string) (d : gmap string pyval) :
  forallb measured pre = true ->
  d !! "success_rate" = None ->
  _identify_optimizations (pre ++ (agent_id, PyDict d) :: post)
  = Raise (mkException "KeyError" "'success_rate'").
Proof. intros Hpre Hd. by apply optimization_loop_missing_rate. Qed.

Lemma optimizations_only_where_needed_witness :
  exists groups,
    _identify_optimizations fleet = Ok (concat groups)
    /\ Forall2 called_for fleet groups.
Proof. apply (optimizations_only_where_needed fleet). vm_compute. reflexivity. Defined.

Lemma optimizations_improve_witness :
  exists optimizations,
    _identify_optimizations fleet = Ok optimizations /\ Forall improving optimizations.
Proof. apply (optimizations_improve fleet). vm_compute. reflexivity. Defined.

Lemma missing_metric_loses_the_analysis_witness :
  _identify_optimizations
    (fleet ++ ("connector", PyDict (<["response_time" := PyFloat 1.0%float]> ∅)) :: [])
  = Raise (mkException "KeyError" "'success_rate'").
Proof.
  apply (missing_metric_loses_the_analysis fleet []).
  - vm_compute. reflexivity.
  - reflexivity.
Defined.

(** The analysis of the fleet, computed: the closer is low and slow, the
    voice is slow, the prospector is left alone. *)
Example fleet_analysis :
  match _identify_optimizations fleet with
  | Ok optimizations => List.map agent_of optimizations
  | Raise _ => []
  end
  = [Some (PyStr "closer"); Some (PyStr "closer"); Some (PyStr "voice")].
Proof. vm_compute. reflexivity. Qed.

End Optimizer.


(** ** The cycles that await no targets *)

Module Cycles.
Import CycleFacts.
Section Proofs.
Context {W : Type}.

Ltac run_cycle :=
  unfold serve, note, on_world, beside_journal, lift_result, gets, try_except;
  unfold mbind, SE_bind, mret, SE_ret;
  cbn [recovery_attempts jobs world trace fst snd subscript].

Section LeadGeneration.
Variable get_conversion_patterns : W -> result pyval * W.
Variables gen_apollo gen_linkedin gen_referral gen_inbound : pyval -> W -> result (list Lead) * W.
Variable research : Lead -> W -> result Lead * W.
Variable determine : Lead -> W -> result pyval * W.
Variable write_sequence : Lead -> pyval -> W -> result pyval * W.
Variable schedule_sequence : Lead -> pyval -> pyval -> W -> result unit * W.
Variable handle : Exception -> W -> result unit * W.

(** X22. The lead generation reaches no lead source.  The targets are the
    un-awaited coroutine of [calculate_optimal_lead_targets], so reading
    the first of them raises [TypeError].  With a read of the conversion
    patterns that returns or raises an instance of [Exception] (the
    outcomes of a collaborator of the model, which the [except Exception]
    of line 163 catches), the cycle notes its start, reads the conversion
    patterns and calls [handle_lead_generation_error], with that
    [TypeError] when the read returned and with the exception of the read
    otherwise; no lead is generated, researched or contacted, and the
    outcome of the cycle is the outcome of the handler. *)
Theorem lead_generation_reaches_no_source (st : State (list Note * W)) :
  let out :=
    _autonomous_lead_generation get_conversion_patterns gen_apollo gen_linkedin
      gen_referral gen_inbound research determine write_sequence schedule_sequence
      handle st in
  exists e,
    journal_since st out.2
    = [Noted Info_starting_lead_generation;
       Served Call_get_conversion_patterns;
       Served (Call_handle_lead_generation_error e)]
    /\ existsb is_lead_work (journal_since st out.2) = false
    /\ trace out.2 = trace st
    /\ out.1 = (handle e (get_conversion_patterns (world st).2).2).1
    /\ (forall conversion_data,
          (get_conversion_patterns (world st).2).1 = Ok conversion_data ->
          e = coroutine_error).
Proof.
  cbv zeta. unfold _autonomous_lead_generation, lead_generation_steps, journal_since.
  run_cycle.
  destruct st as [attempts js [journal w] tr]. cbn [world fst snd].
  destruct (get_conversion_patterns w) as [[conversion_data|e] w'];
    cbn [recovery_attempts jobs world trace fst snd].
  - exists coroutine_error. unfold coroutine_error.
    destruct (handle _ w') as [r w'']; cbn [recovery_attempts jobs world trace fst snd].
    rewrite <- !app_assoc, drop_app_length. repeat split.
  - exists e.
    destruct (handle e w') as [r w'']; cbn [recovery_attempts jobs world trace fst snd].
    rewrite <- !app_assoc, drop_app_length. repeat split. intros ? [=].
Qed.

End LeadGeneration.

Section WeeklyBriefing.
Variable get_weekly_revenue get_weekly_leads get_weekly_content_metrics : W -> result pyval * W.
Variable get_opportunity_pipeline get_client_metrics get_system_performance : W -> result pyval * W.
Variable generate_priority_actions : pyval -> W -> result pyval * W.
Variable save_weekly_briefing : pyval -> W -> result unit * W.
Variable implement : pyval -> W -> result unit * W.
Variable handle : Exception -> W -> result unit * W.
Variable week_of_now : W -> string.

Abbreviation briefing :=
  (_weekly_strategic_briefing get_weekly_revenue get_weekly_leads
     get_weekly_content_metrics get_opportunity_pipeline get_client_metrics
     get_system_performance generate_priority_actions save_weekly_briefing implement
     handle week_of_now).

Ltac run_read f :=
  match goal with
  | |- context [f ?w] => destruct (f w) as [[?v|?e] ?w']
  end; cbn [recovery_attempts jobs world trace fst snd].

Ltac end_in_handler :=
  match goal with
  | |- context [handle ?e ?w] =>
      exists e, w; destruct (handle e w) as [?r ?w''];
      cbn [recovery_attempts jobs world trace fst snd];
      rewrite <- ?app_assoc, drop_app_length; repeat split
  end.

(** X23. The weekly briefing is never delivered.  The recommendations are
    the un-awaited coroutine of [generate_weekly_strategy], so building the
    briefing raises [TypeError] at its summary.  With reads of the database
    and priority actions that return or raise an instance of [Exception]
    (the outcomes of a collaborator of the model, which the
    [except Exception] of line 302 catches), the briefing is not saved, no
    change is implemented and the completion is not logged; the last thing
    the cycle does is to call [handle_strategy_error], and its outcome is
    the outcome of that call. *)
Theorem weekly_briefing_is_never_saved (st : State (list Note * W)) :
  exists e w,
    last (journal_since st (briefing st).2) = Some (Served (Call_handle_strategy_error e))
    /\ existsb is_briefing_delivery (journal_since st (briefing st).2) = false
    /\ (briefing st).1 = (handle e w).1.
Proof.
  unfold _weekly_strategic_briefing, weekly_briefing_steps, journal_since.
  run_cycle.
  destruct st as [attempts js [journal w] tr]. cbn [world fst snd].
  run_read get_weekly_revenue; [|end_in_handler].
  run_read get_weekly_leads; [|end_in_handler].
  run_read get_weekly_content_metrics; [|end_in_handler].
  run_read get_opportunity_pipeline; [|end_in_handler].
  run_read get_client_metrics; [|end_in_handler].
  run_read get_system_performance; [|end_in_handler].
  match goal with
  | |- context [generate_priority_actions ?r ?w] =>
      destruct (generate_priority_actions r w) as [[?v|?e] ?w']
  end; cbn [recovery_attempts jobs world trace fst snd]; end_in_handler.
Qed.


End WeeklyBriefing.
End Proofs.


End Cycles.


(** ** Proposals and emails *)

Module Outreach.
Import OptimizerFacts CycleFacts OutreachFacts.
Section Proofs.
Context {W : Type}.

Ltac run_cycle :=
  unfold serve, note, on_world, beside_journal, lift_result, gets;
  unfold mbind, SE_bind, mret, SE_ret;
  cbn [recovery_attempts jobs world trace fst snd].

Section Proposals.
Variable get_leads_ready_for_proposals : W -> result (list pyval) * W.
Variable generate : pyval -> W -> result pyval * W.
Variable send followup : pyval -> pyval -> W -> result unit * W.
Variable proposal_of : pyval -> pyval.

Hypothesis generate_returns : forall lead w, (generate lead w).1 = Ok (proposal_of lead).
Hypothesis send_returns : forall lead proposal w, (send lead proposal w).1 = Ok tt.
Hypothesis followup_returns : forall lead proposal w, (followup lead proposal w).1 = Ok tt.




End Proposals.

Section Emails.
Variable fetch : W -> result (list pyval) * W.
Variable analyze : pyval -> W -> result pyval * W.
Variable respond : pyval -> pyval -> W -> result pyval * W.
Variable send schedule : pyval -> pyval -> W -> result unit * W.
Variable intent_of : pyval -> pyval.

Hypothesis analyze_returns : forall email w, (analyze email w).1 = Ok (intent_of email).
Hypothesis respond_returns :
  forall email intent w, exists response, (respond email intent w).1 = Ok response.
Hypothesis send_returns : forall email response w, (send email response w).1 = Ok tt.
Hypothesis schedule_returns : forall email timing w, (schedule email timing w).1 = Ok tt.



End Emails.
End Proofs.



End Outreach.
